(** * Infinity-Chat: the context store and the chat pipeline of [app.py]

    A shallow embedding of the Flask application in [src/app.py]: the
    in-memory dictionary [extracted_texts], the user table, the route
    handlers and the helpers they call.  Python values that come out of a
    JSON request body are modelled by [json]; code that may raise runs in a
    small state-and-exception monad [M]; the answers of the outside world
    (HTTP fetches, the completion service, the random generator, the
    database commit) are read from an [env] record, one per request. *)

From Stdlib Require Import ZArith NArith Lia Ascii String.
From Stdlib Require QArith_base.
From stdpp Require Import gmap strings list fin_maps.

Local Open Scope string_scope.
Local Open Scope list_scope.
#[local] Set Warnings "-register-all".

(** ** Python values *)

(** A value decoded from a JSON body ([request.json]).  [JNull] is Python's
    [None], which is also what [dict.get] returns for a missing key. *)
Inductive json : Type :=
| JNull
| JBool (b : bool)
| JInt (n : Z)
| JStr (s : string)
| JArr (items : list json)
| JObj (fields : list (string * json)).

(** Python truthiness, as tested by [if not x]. *)
Definition truthy (v : json) : bool :=
  match v with
  | JNull => false
  | JBool b => b
  | JInt n => negb (n =? 0)%Z
  | JStr s => negb (String.eqb s EmptyString)
  | JArr items => match items with [] => false | _ => true end
  | JObj fields => match fields with [] => false | _ => true end
  end.

(** The items of a parsed dict have distinct keys; the lookup takes the
    first binding of the key. *)
Fixpoint assoc {A : Type} (k : string) (l : list (string * A)) : option A :=
  match l with
  | [] => None
  | (k', v) :: rest => if String.eqb k k' then Some v else assoc k rest
  end.

(** ** Exceptions *)

(** The exception families the handlers tell apart, and the ones the
    modelled operations raise. *)
Inductive exn_class : Type :=
| RequestException      (* requests.exceptions.RequestException and subclasses *)
| APIError              (* an error reported by the completion service *)
| AttributeError
| TypeError
| IndexError
| SQLAlchemyError
| TemplateNotFound
| BadRequest            (* werkzeug.exceptions.BadRequest, an HTTPException *)
| UnsupportedMediaType  (* werkzeug.exceptions.UnsupportedMediaType, an HTTPException *)
| OtherException.

#[global] Instance exn_class_eq_dec : EqDecision exn_class.
Proof. solve_decision. Defined.

Record exn : Type := Exn { exn_class_of : exn_class; exn_str : string }.

Inductive outcome (A : Type) : Type :=
| Returned (a : A)
| Raised (e : exn).
Arguments Returned {A} a.
Arguments Raised {A} e.

(** ** The outside world *)

Record http_response : Type :=
  HttpResponse { status_code : nat; text : string }.

Record message : Type := Message { role : string; content : json }.

(** The keyword arguments of [client.chat.completions.create]. *)
Record completion_request : Type := CompletionRequest {
  model : string;
  messages : list message;
  max_tokens : nat;
  temperature : QArith_base.Q;
  top_p : QArith_base.Q;
  top_k : nat;
  repetition_penalty : nat;
  stop : list string
}.

(** How the outside world answers during one request.  [uuid4_random] is
    the 16 random bytes read by [uuid.uuid4()], as an integer; [now] is the
    clock in seconds; [html_paragraphs body] is
    [[p.text for p in BeautifulSoup(body, 'html.parser').find_all('p')]]
    for a body the parser accepts;
    [completions_create] returns the [message.content] of each choice;
    [sql_bind v] is what the database driver makes of a query parameter
    [v] that is not a string when it meets the text column [email]: a text
    (SQLite compares the number 5 with the text '5'), NULL for [None], or
    an exception (a list or a dict cannot be bound). *)
Record env : Type := Env {
  requests_get : json -> outcome http_response;
  html_paragraphs : string -> list string;
  uuid4_random : N;
  db_commit : option exn;
  completions_create : completion_request -> outcome (list string);
  generate_password_hash : json -> outcome string;
  check_password_hash : string -> json -> outcome bool;
  render_template : string -> outcome string;
  sql_bind : json -> outcome (option string);
  now : N
}.

(** ** Application state *)

(** A row of the [User] table.  The [api_keys] column holds
    [json.dumps] of a list of strings and is only ever read back through
    [json.loads]; the model keeps the list itself. *)
Record User : Type := mkUser {
  email : json;
  password : string;
  api_keys : list string
}.

Inductive log_level : Type := INFO | ERROR.

(** What a handler does to the outside, in order.  [Logged lvl prefix arg]
    is a log record whose message is [prefix] followed by the text of
    [arg]. *)
Inductive event : Type :=
| Fetched (url : json)
| Completion (req : completion_request)
| Logged (lvl : log_level) (prefix : string) (arg : json).

Record state : Type := State {
  extracted_texts : gmap string string;
  users : gmap nat User;
  session : option nat;
  hits : gmap (string * string * N) (N * nat);
  trace : list event
}.

Definition set_extracted_texts (f : gmap string string -> gmap string string)
    (st : state) : state :=
  State (f (extracted_texts st)) (users st) (session st) (hits st) (trace st).

Definition set_users (f : gmap nat User -> gmap nat User) (st : state) : state :=
  State (extracted_texts st) (f (users st)) (session st) (hits st) (trace st).

Definition set_session (s : option nat) (st : state) : state :=
  State (extracted_texts st) (users st) s (hits st) (trace st).

Definition set_hits (h : gmap (string * string * N) (N * nat)) (st : state) : state :=
  State (extracted_texts st) (users st) (session st) h (trace st).

Definition add_event (ev : event) (st : state) : state :=
  State (extracted_texts st) (users st) (session st) (hits st) (trace st ++ [ev]).

(** ** The monad of handler code: state plus Python exceptions *)

Definition M (A : Type) : Type := state -> outcome A * state.

Definition ret {A : Type} (a : A) : M A := fun st => (Returned a, st).

Definition raise {A : Type} (e : exn) : M A := fun st => (Raised e, st).

Definition bind {A B : Type} (m : M A) (k : A -> M B) : M B :=
  fun st =>
    match m st with
    | (Returned a, st') => k a st'
    | (Raised e, st') => (Raised e, st')
    end.

(** [try: body except Exception as e: handler e] *)
Definition try_except {A : Type} (body : M A) (handler : exn -> M A) : M A :=
  fun st =>
    match body st with
    | (Returned a, st') => (Returned a, st')
    | (Raised e, st') => handler e st'
    end.

Definition get_state : M state := fun st => (Returned st, st).

Definition modify (f : state -> state) : M unit := fun st => (Returned tt, f st).

Definition emit (ev : event) : M unit := modify (add_event ev).

Definition lift_outcome {A : Type} (o : outcome A) : M A :=
  match o with
  | Returned a => ret a
  | Raised e => raise e
  end.

Declare Scope py_scope.
Delimit Scope py_scope with py.
Notation "x <- m ;; k" := (bind m (fun x => k))
  (at level 100, m at next level, right associativity) : py_scope.
Notation "m ;;; k" := (bind m (fun _ => k))
  (at level 100, right associativity) : py_scope.
Local Open Scope py_scope.

(** ** Library helpers *)

(** [data.get(key)] on a decoded body: a dict answers with the value or
    [None]; any other value has no [get] attribute. *)
Definition json_get (body : json) (key : string) : outcome json :=
  match body with
  | JObj fields => Returned (default JNull (assoc key fields))
  | JNull => Raised (Exn AttributeError "'NoneType' object has no attribute 'get'")
  | JBool _ => Raised (Exn AttributeError "'bool' object has no attribute 'get'")
  | JInt _ => Raised (Exn AttributeError "'int' object has no attribute 'get'")
  | JStr _ => Raised (Exn AttributeError "'str' object has no attribute 'get'")
  | JArr _ => Raised (Exn AttributeError "'list' object has no attribute 'get'")
  end.

(** [d.get(key, default)] on a dict whose keys are strings: a list or a
    dict cannot be hashed, any other value that is not a string is simply
    absent. *)
Definition dict_get (d : gmap string string) (key : json) (dflt : string)
    : outcome string :=
  match key with
  | JStr k => Returned (default dflt (d !! k))
  | JArr _ => Raised (Exn TypeError "unhashable type: 'list'")
  | JObj _ => Raised (Exn TypeError "unhashable type: 'dict'")
  | JNull | JBool _ | JInt _ => Returned dflt
  end.

(** [request.json.get(key)]: [request.json] is the decoded body, or the
    exception Flask raises when the body cannot be read as JSON. *)
Definition request_json_get (request_json : outcome json) (key : string) : outcome json :=
  match request_json with
  | Returned data => json_get data key
  | Raised ex => Raised ex
  end.

(** The double quote character, as a string. *)
Definition dq : string := String "034"%char EmptyString.

(** *** [uuid.uuid4().hex] *)

(** [uuid.uuid4()]: sixteen random bytes with the variant and version bits
    of an RFC 4122 version 4 UUID forced. *)
Definition uuid4 (random : N) : N :=
  let int := (random mod 2 ^ 128)%N in
  let int := N.lor (N.ldiff int (N.shiftl 0xc000 48)) (N.shiftl 0x8000 48) in
  N.lor (N.ldiff int (N.shiftl 0xf000 64)) (N.shiftl 4 76).

Definition hex_alphabet : list ascii :=
  ["0"; "1"; "2"; "3"; "4"; "5"; "6"; "7"; "8"; "9";
   "a"; "b"; "c"; "d"; "e"; "f"]%char.

Definition hex_digit (d : N) : ascii := nth (N.to_nat d) hex_alphabet "0"%char.

(** The [width] low hexadecimal digits of [n], most significant first. *)
Fixpoint hex_digits (width : nat) (n : N) : list ascii :=
  match width with
  | O => []
  | S w => hex_digits w (n / 16)%N ++ [hex_digit (n mod 16)%N]
  end.

(** [UUID.hex] is ['%032x' % self.int]; the integer of a UUID is below
    [2 ^ 128], so the result is its 32 hexadecimal digits. *)
Definition uuid_hex (int : N) : string := string_of_list_ascii (hex_digits 32 int).

(** [f"user_{uuid.uuid4().hex}"] *)
Definition new_api_key (e : env) : string := "user_" +:+ uuid_hex (uuid4 (uuid4_random e)).

(** The text of the f-string of [chatbot_design] before and after its one
    placeholder [{api_key}], split at the double quotes it contains. *)
Definition design_before_key : string :=
  String.concat dq
  ["
    <!-- AI Chatbot -->
    <div id=";
   "ai-chatbot";
   " style=";
   "position: fixed; bottom: 20px; right: 20px; width: 300px; height: 400px; background-color: #f1f1f1; border-radius: 10px; box-shadow: 0 0 10px rgba(0,0,0,0.1); display: flex; flex-direction: column; overflow: hidden;";
   ">
        <div style=";
   "background-color: #007bff; color: white; padding: 10px; font-weight: bold;";
   ">AI Chatbot</div>
        <div id=";
   "chat-messages";
   " style=";
   "flex-grow: 1; overflow-y: auto; padding: 10px;";
   "></div>
        <div style=";
   "padding: 10px; border-top: 1px solid #ddd;";
   ">
            <input type=";
   "text";
   " id=";
   "user-input";
   " placeholder=";
   "Type your message...";
   " style=";
   "width: 80%; padding: 5px;";
   ">
            <button onclick=";
   "sendMessage()";
   " style=";
   "width: 18%; padding: 5px;";
   ">Send</button>
        </div>
    </div>

    <script>
    console.log('Chatbot script loaded');
    const chatWithAI = async (input) => {
        console.log('Sending message to AI:', input);
        try {
            const response = await axios.post('https://chatcat-s1ny.onrender.com/chat', {
                input: input,
                api_key: '"].

Definition design_after_key : string :=
  "'
            });
            console.log('Received response from AI:', response.data);
            return response.data.response;
        } catch (error) {
            console.error('Error in chatWithAI:', error);
            if (error.response) {
                console.error('Error response:', error.response.data);
                return `Server Error: ${error.response.data.error || 'Unknown server error'}`;
            } else if (error.request) {
                console.error('No response received');
                return 'Network Error: No response received from the server. Please check your internet connection.';
            } else {
                console.error('Error message:', error.message);
                return `Error: ${error.message}`;
            }
        }
    };

    function addMessage(sender, message) {
        console.log(`Adding message from ${sender}:`, message);
        const chatMessages = document.getElementById('chat-messages');
        const messageElement = document.createElement('div');
        messageElement.innerHTML = `<strong>${sender}:</strong> ${message}`;
        chatMessages.appendChild(messageElement);
        chatMessages.scrollTop = chatMessages.scrollHeight;
    }

    async function sendMessage() {
        const userInput = document.getElementById('user-input');
        const message = userInput.value.trim();
        if (message) {
            console.log('User sending message:', message);
            addMessage('You', message);
            userInput.value = '';
            const response = await chatWithAI(message);
            console.log('Received AI response:', response);
            addMessage('AI', response);
        }
    }

    // Initialize chat
    console.log('Initializing chat');
    addMessage('AI', 'Hello! How can I assist you today?');

    // Add event listener for Enter key
    document.getElementById('user-input').addEventListener('keypress', function(event) {
        if (event.key === 'Enter') {
            sendMessage();
        }
    });
    </script>
    ".

(** The text of the f-string of [generate_integration_script] around its
    placeholder. *)
Definition script_before_key : string :=
  "
<script>
(function() {
    var script = document.createElement('script');
    script.src = 'https://cdn.jsdelivr.net/npm/axios/dist/axios.min.js';
    script.onload = function() {
        var chatbotScript = document.createElement('script');
        chatbotScript.textContent = `
            axios.get('https://chatcat-s1ny.onrender.com/chatbot-design?api_key=".

Definition script_after_key : string :=
  "')
                .then(function(response) {
                    var div = document.createElement('div');
                    div.innerHTML = response.data;
                    document.body.appendChild(div);
                })
                .catch(function(error) {
                    console.error('Error loading chatbot:', error);
                });
        `;
        document.body.appendChild(chatbotScript);
    };
    document.body.appendChild(script);
})();
</script>
".

(** ** Responses *)

Inductive body : Type :=
| JsonBody (j : json)
| HtmlBody (html : string).

Record response : Type := Response { status : nat; payload : body }.

(** [jsonify(j), code] *)
Definition jsonify (j : json) (code : nat) : response := Response code (JsonBody j).

Definition error_body (msg : string) : json := JObj [("error", JStr msg)].

(** ** The database session *)

(** [db.session.commit()] after a change to the table: the change is
    applied, or the commit raises and the table stays as it was. *)
Definition commit (e : env) (change : gmap nat User -> gmap nat User) : M unit :=
  match db_commit e with
  | None => modify (set_users change)
  | Some ex => raise ex
  end.

(** The row holds the text [addr] in its [email] column. *)
Definition has_email (addr : string) (row : nat * User) : bool :=
  match email (snd row) with
  | JStr s => String.eqb s addr
  | _ => false
  end.

(** The parameter [email] of a query or of an insert, as the text column
    receives it: a string is taken as it is, anything else as the driver
    binds it. *)
Definition bound_text (e : env) (v : json) : outcome (option string) :=
  match v with
  | JStr s => Returned (Some s)
  | _ => sql_bind e v
  end.

(** [User.query.filter_by(email=email).first()]: the column is unique, so
    at most one row matches; no row has a NULL address. *)
Definition filter_by_email (e : env) (table : gmap nat User) (addr : json)
    : outcome (option (nat * User)) :=
  match bound_text e addr with
  | Returned (Some s) => Returned (List.find (has_email s) (map_to_list table))
  | Returned None => Returned None
  | Raised ex => Raised ex
  end.

(** The primary key given to a new row: one more than the largest in use. *)
Definition next_id (table : gmap nat User) : nat :=
  S (map_fold (fun k _ acc => Nat.max k acc) 0 table).

(** ** The content extractor *)

(** [extract_text_from_url]: one [requests.get], then the text of every
    [<p>] element joined by single spaces. *)
Definition extract_text_from_url (e : env) (url : json) : M string :=
  emit (Fetched url) ;;;
  response <- lift_outcome (requests_get e url) ;;
  ret (String.concat " " (html_paragraphs e (text response))).

Definition generate_integration_script (api_key : string) : string :=
  script_before_key +:+ api_key +:+ script_after_key.

(** ** Route handlers *)

Definition index (e : env) : M response :=
  html <- lift_outcome (render_template e "index.html") ;;
  ret (Response 200 (HtmlBody html)).

(** [db.session.add(User(email, password, '[]'))] and the commit: the
    address is written as the column receives it; the column is not
    nullable. *)
Definition add_user (e : env) (addr : json) (hashed_password : string) : M unit :=
  match bound_text e addr with
  | Returned (Some s) =>
      commit e (fun table => <[next_id table := mkUser (JStr s) hashed_password []]> table)
  | Returned None => raise (Exn SQLAlchemyError "NOT NULL constraint failed: user.email")
  | Raised ex => raise ex
  end.

Definition register (e : env) (data : outcome json) : M response :=
  addr <- lift_outcome (request_json_get data "email") ;;
  pw <- lift_outcome (request_json_get data "password") ;;
  st <- get_state ;;
  found <- lift_outcome (filter_by_email e (users st) addr) ;;
  match found with
  | Some _ => ret (jsonify (error_body "Email already registered") 400)
  | None =>
      hashed_password <- lift_outcome (generate_password_hash e pw) ;;
      add_user e addr hashed_password ;;;
      ret (jsonify (JObj [("message", JStr "User registered successfully")]) 201)
  end.

Definition login (e : env) (data : outcome json) : M response :=
  addr <- lift_outcome (request_json_get data "email") ;;
  pw <- lift_outcome (request_json_get data "password") ;;
  st <- get_state ;;
  found <- lift_outcome (filter_by_email e (users st) addr) ;;
  match found with
  | Some (id, user) =>
      ok <- lift_outcome (check_password_hash e (password user) pw) ;;
      if ok : bool then
        modify (set_session (Some id)) ;;;
        ret (jsonify (JObj [("message", JStr "Logged in successfully")]) 200)
      else ret (jsonify (error_body "Invalid credentials") 401)
  | None => ret (jsonify (error_body "Invalid credentials") 401)
  end.

Definition logout : M response :=
  modify (set_session None) ;;;
  ret (jsonify (JObj [("message", JStr "Logged out successfully")]) 200).

Definition process_url (e : env) (data : outcome json) : M response :=
  st <- get_state ;;
  match session st with
  | None => ret (jsonify (error_body "User not logged in") 401)
  | Some user_id =>
      url <- lift_outcome (request_json_get data "url") ;;
      if negb (truthy url) then ret (jsonify (error_body "No URL provided") 400)
      else
        try_except
          (extracted_text <- extract_text_from_url e url ;;
           let api_key := new_api_key e in
           modify (set_extracted_texts (insert api_key extracted_text)) ;;;
           st' <- get_state ;;
           match users st' !! user_id with
           | None =>
               raise (Exn AttributeError "'NoneType' object has no attribute 'api_keys'")
           | Some user =>
               let keys := api_keys user ++ [api_key] in
               commit e (insert user_id (mkUser (email user) (password user) keys)) ;;;
               let integration_code := generate_integration_script api_key in
               let response_data :=
                 JObj [("message", JStr "Processing complete");
                       ("api_key", JStr api_key);
                       ("integration_code", JStr integration_code)] in
               emit (Logged INFO "Sending response: " response_data) ;;;
               ret (jsonify response_data 200)
           end)
          (fun ex =>
             emit (Logged ERROR "Error in process_url: " (JStr (exn_str ex))) ;;;
             ret (jsonify (error_body (exn_str ex)) 500))
  end.

(** [request.args.get('api_key')] is a string or [None]. *)
Definition chatbot_design (args : list (string * string)) : M response :=
  match assoc "api_key" args with
  | None => ret (jsonify (error_body "API key is required") 400)
  | Some api_key =>
      if String.eqb api_key EmptyString
      then ret (jsonify (error_body "API key is required") 400)
      else ret (Response 200 (HtmlBody (design_before_key +:+ api_key +:+ design_after_key)))
  end.

(** *** The chat gateway *)

(** The default of [extracted_texts.get(api_key, ...)]. *)
Definition no_context : string := "No context available for this API key.".

Definition system_prompt (context : string) : string :=
  "You are a chatbot trained on the following website content: " +:+ context.

Definition chat_messages (context : string) (user_input : json) : list message :=
  [Message "system" (JStr (system_prompt context)); Message "user" user_input].

Definition chat_request (msgs : list message) : completion_request :=
  {| model := "meta-llama/Meta-Llama-3.1-8B-Instruct-Turbo";
     messages := msgs;
     max_tokens := 512;
     temperature := QArith_base.Qmake 7 10;
     top_p := QArith_base.Qmake 7 10;
     top_k := 50;
     repetition_penalty := 1;
     stop := ["<|eot_id|>"; "<|eom_id|>"] |}.

(** [client.chat.completions.create(...)] *)
Definition create (e : env) (req : completion_request) : M (list string) :=
  emit (Completion req) ;;;
  lift_outcome (completions_create e req).

(** The expression [Together.APIError] of the second [except] clause.
    [Together] is the client class of the together package and has no
    attribute of that name (the error classes live in [together.error]),
    so evaluating the expression raises. *)
Definition Together_APIError : outcome exn_class :=
  Raised (Exn AttributeError "type object 'Together' has no attribute 'APIError'").

(** The three [except] clauses of [chat], tried in order.  The expression
    of a clause is evaluated when the clauses before it did not match; an
    exception raised by that evaluation leaves the [try] statement. *)
Definition chat_except (ex : exn) : M response :=
  match exn_class_of ex with
  | RequestException =>
      emit (Logged ERROR "Network error in chat route: " (JStr (exn_str ex))) ;;;
      ret (jsonify (error_body ("Network error: " +:+ exn_str ex)) 503)
  | cls =>
      api_error <- lift_outcome Together_APIError ;;
      if decide (cls = api_error) then
        emit (Logged ERROR "Together API error in chat route: " (JStr (exn_str ex))) ;;;
        ret (jsonify (error_body ("Together API error: " +:+ exn_str ex)) 500)
      else
        emit (Logged ERROR "Unexpected error in chat route: " (JStr (exn_str ex))) ;;;
        ret (jsonify (error_body ("Unexpected error: " +:+ exn_str ex)) 500)
  end.

Definition chat (e : env) (data : outcome json) : M response :=
  try_except
    (user_input <- lift_outcome (request_json_get data "input") ;;
     api_key <- lift_outcome (request_json_get data "api_key") ;;
     if negb (truthy user_input) || negb (truthy api_key)
     then ret (jsonify (error_body "Input and API key are required") 400)
     else
       st <- get_state ;;
       context <- lift_outcome (dict_get (extracted_texts st) api_key no_context) ;;
       let msgs := chat_messages context user_input in
       emit (Logged INFO "Sending request to Together API with input: " user_input) ;;;
       choices <- create e (chat_request msgs) ;;
       emit (Logged INFO "Received response from Together API: " (JArr (map JStr choices))) ;;;
       match choices with
       | [] => raise (Exn IndexError "list index out of range")
       | first :: _ => ret (jsonify (JObj [("response", JStr first)]) 200)
       end)
    chat_except.

Definition get_user_api_keys : M response :=
  st <- get_state ;;
  match session st with
  | None => ret (jsonify (error_body "User not logged in") 401)
  | Some user_id =>
      match users st !! user_id with
      | None => raise (Exn AttributeError "'NoneType' object has no attribute 'api_keys'")
      | Some user => ret (jsonify (JObj [("api_keys", JArr (map JStr (api_keys user)))]) 200)
      end
  end.

(** ** Requests and routing *)

Inductive route : Type :=
| RIndex | RRegister | RLogin | RLogout | RProcessUrl | RChatbotDesign | RChat
| RUserApiKeys
| RNoMatch.   (* no rule matches the path and method: no view runs *)

#[global] Instance route_eq_dec : EqDecision route.
Proof. solve_decision. Defined.

(** A request as the application sees it: the peer address, the user id in
    the signed session cookie, the matched rule, what [request.json] gives
    (the decoded body, or the exception raised for a body that is not JSON)
    and the query string. *)
Record request : Type := Request {
  remote_addr : string;
  cookie : option nat;
  target : route;
  json_body : outcome json;
  args : list (string * string)
}.

Definition view (e : env) (r : request) : M response :=
  match target r with
  | RIndex => index e
  | RRegister => register e (json_body r)
  | RLogin => login e (json_body r)
  | RLogout => logout
  | RProcessUrl => process_url e (json_body r)
  | RChatbotDesign => chatbot_design (args r)
  | RChat => chat e (json_body r)
  | RUserApiKeys => get_user_api_keys
  | RNoMatch => ret (Response 404 (HtmlBody "Not Found"))
  end.

Definition endpoint (t : route) : string :=
  match t with
  | RIndex => "index"
  | RRegister => "register"
  | RLogin => "login"
  | RLogout => "logout"
  | RProcessUrl => "process_url"
  | RChatbotDesign => "chatbot_design"
  | RChat => "chat"
  | RUserApiKeys => "get_user_api_keys"
  | RNoMatch => EmptyString
  end.

(** ** The rate limiter *)

(** [amount] requests per [per] seconds. *)
Record limit : Type := Limit { amount : nat; per : N }.

(** [default_limits=["200 per day", "50 per hour"]] *)
Definition default_limits : list limit := [Limit 200 86400; Limit 50 3600].

(** [@limiter.limit("5 per minute")] *)
Definition five_per_minute : limit := Limit 5 60.

(** Modelled from the spec: the flask_limiter extension is not part of the
    sources.  The default tiers apply to every endpoint, the stricter
    per-endpoint limit applies to the extraction-submit and chat endpoints
    as well. *)
Definition limits_of (t : route) : list limit :=
  match t with
  | RProcessUrl | RChat => five_per_minute :: default_limits
  | RNoMatch => []
  | _ => default_limits
  end.

(** Modelled from the spec: the limiter state is windowed and reset on
    window rollover.  A counter is kept per client identity, bucket and
    window length; it holds the time its window ends and the requests
    admitted in it. *)
Definition window_count (h : gmap (string * string * N) (N * nat))
    (key : string * string * N) (t : N) : nat :=
  match h !! key with
  | Some (expiry, c) => if (t <? expiry)%N then c else 0
  | None => 0
  end.

Definition within (h : gmap (string * string * N) (N * nat))
    (client bucket : string) (t : N) (l : limit) : bool :=
  Nat.ltb (window_count h (client, bucket, per l) t) (amount l).

Definition record_hit (client bucket : string) (t : N) (l : limit)
    (h : gmap (string * string * N) (N * nat)) : gmap (string * string * N) (N * nat) :=
  let key := (client, bucket, per l) in
  match h !! key with
  | Some (expiry, c) =>
      if (t <? expiry)%N then <[key := (expiry, S c)]> h
      else <[key := ((t + per l)%N, 1)]> h
  | None => <[key := ((t + per l)%N, 1)]> h
  end.

(** Modelled from the spec: [allow(clientIdentity, bucketName)] admits a
    request when every applicable limit has room, and counts it. *)
Definition allow (client bucket : string) (t : N) (limits : list limit)
    (h : gmap (string * string * N) (N * nat))
    : bool * gmap (string * string * N) (N * nat) :=
  if forallb (within h client bucket t) limits
  then (true, foldr (record_hit client bucket t) h limits)
  else (false, h).

(** ** The server loop *)

Definition too_many_requests : response := Response 429 (HtmlBody "Too Many Requests").

Definition internal_server_error : response :=
  Response 500 (HtmlBody "Internal Server Error").

(** What Flask answers when an exception leaves a view: a werkzeug
    [HTTPException] is its own response, anything else is the 500 page. *)
Definition error_page (ex : exn) : response :=
  match exn_class_of ex with
  | BadRequest => Response 400 (HtmlBody "Bad Request")
  | UnsupportedMediaType => Response 415 (HtmlBody "Unsupported Media Type")
  | _ => internal_server_error
  end.

(** One request: the limiter first (keyed by [get_remote_address]), then
    the view with the session of the request's cookie; an exception that
    leaves the view is answered by [error_page]. *)
Definition serve (e : env) (r : request) (st : state) : response * state :=
  let '(ok, h) :=
    allow (remote_addr r) (endpoint (target r)) (now e) (limits_of (target r)) (hits st) in
  if ok then
    match view e r (set_hits h (set_session (cookie r) st)) with
    | (Returned resp, st') => (resp, st')
    | (Raised ex, st') => (error_page ex, st')
    end
  else (too_many_requests, st).

(** The requests of a process lifetime, in the order they are handled. *)
Fixpoint run (reqs : list (env * request)) (st : state) : list response * state :=
  match reqs with
  | [] => ([], st)
  | (e, r) :: rest =>
      let '(resp, st') := serve e r st in
      let '(resps, st'') := run rest st' in
      (resp :: resps, st'')
  end.

(** The completion requests sent so far. *)
Definition completion_calls (tr : list event) : list completion_request :=
  omap (fun ev => match ev with Completion req => Some req | _ => None end) tr.

(** The URLs fetched so far. *)
Definition fetch_calls (tr : list event) : list json :=
  omap (fun ev => match ev with Fetched url => Some url | _ => None end) tr.

(** * Vocabulary of the statements *)

(** What the spec asks of [extract]: success only on a 2xx response. *)
Definition is_2xx (code : nat) : bool := Nat.leb 200 code && Nat.ltb code 300.

(** The body of the JSON answer of a successful [process_url]. *)
Definition processing_complete (api_key : string) : json :=
  JObj [("message", JStr "Processing complete");
        ("api_key", JStr api_key);
        ("integration_code", JStr (generate_integration_script api_key))].

(** A lower-case hexadecimal digit. *)
Definition is_hex_char (c : ascii) : bool :=
  let n := nat_of_ascii c in
  (Nat.leb 48 n && Nat.leb n 57) || (Nat.leb 97 n && Nat.leb n 102).

(** The format [user_<32 hex chars>]. *)
Definition well_formed_key (key : string) : Prop :=
  exists h : string,
    key = "user_" +:+ h
    /\ String.length h = 32
    /\ forallb is_hex_char (list_ascii_of_string h) = true.

(** [m] never changes the component [proj] of the state. *)
Definition preserves {A B : Type} (proj : state -> A) (m : M B) : Prop :=
  forall st, proj (snd (m st)) = proj st.

(** The state in which the view of a request runs. *)
Definition admitted (r : request) (h : gmap (string * string * N) (N * nat)) (st : state)
    : state :=
  set_hits h (set_session (cookie r) st).

(** The [api_key] field a client reads from a 200 JSON answer. *)
Definition returned_key (resp : response) : option string :=
  match payload resp with
  | JsonBody j =>
      match json_get j "api_key" with
      | Returned (JStr key) => if Nat.eqb (status resp) 200 then Some key else None
      | _ => None
      end
  | HtmlBody _ => None
  end.

(** Every response [m] returns satisfies [P]. *)
Definition answers (P : response -> Prop) (m : M response) : Prop :=
  forall st resp st', m st = (Returned resp, st') -> P resp.

(** The requests of a run that reach [process_url]. *)
Definition submissions (reqs : list (env * request)) : list env :=
  fst <$> filter (fun er => target (snd er) = RProcessUrl) reqs.

(** The endpoints decorated with [@limiter.limit("5 per minute")]. *)
Definition hot (t : route) : Prop := t = RProcessUrl \/ t = RChat.

(** The request comes from client [c] and is routed to [t]. *)
Definition from_client (c : string) (t : route) (er : env * request) : Prop :=
  remote_addr (snd er) = c /\ target (snd er) = t.

#[global] Instance from_client_dec c t er : Decision (from_client c t er).
Proof. unfold from_client. apply _. Defined.

(** Every request of client [c] to [t] in [reqs] arrives less than 60
    seconds after the first of them. *)
Definition same_minute (c : string) (t : route) (reqs : list (env * request)) : Prop :=
  match filter (from_client c t) reqs with
  | [] => True
  | first :: rest => Forall (fun er => (now (fst er) < now (fst first) + 60)%N) rest
  end.

(** The three counters of a client on a hot endpoint: none yet, or all
    opened at time [t0] with [k] requests admitted. *)
Definition counters_at (h : gmap (string * string * N) (N * nat)) (c b : string)
    (w : option (N * nat)) : Prop :=
  match w with
  | None => forall p, h !! (c, b, p) = None
  | Some (t0, k) =>
      h !! (c, b, 60%N) = Some ((t0 + 60)%N, k)
      /\ h !! (c, b, 3600%N) = Some ((t0 + 3600)%N, k)
      /\ h !! (c, b, 86400%N) = Some ((t0 + 86400)%N, k)
  end.

(** What [serve] does once the limiter has admitted the request. *)
Definition run_view (e : env) (r : request) (st : state) : response * state :=
  match view e r st with
  | (Returned resp, st') => (resp, st')
  | (Raised ex, st') => (error_page ex, st')
  end.

(** * Sample runs

    Concrete requests and outside worlds on which the handlers are run. *)

(** An outside world used to run the handlers on examples: every fetch
    returns a 200 page with one paragraph, the completion service answers
    with one choice, and the commit succeeds. *)
Definition sample_env : env :=
  {| requests_get := fun _ => Returned (HttpResponse 200 "<p>Hello. World.</p>");
     html_paragraphs := fun _ => ["Hello. World."];
     uuid4_random := 0;
     db_commit := None;
     completions_create := fun _ => Returned ["Hi there"];
     generate_password_hash := fun _ => Returned "pbkdf2";
     check_password_hash := fun _ _ => Returned true;
     render_template := fun _ => Returned "<html></html>";
     sql_bind := fun _ => Raised (Exn SQLAlchemyError "Error binding parameter");
     now := 0 |}.

Definition sample_state : state := State ∅ ∅ None ∅ [].

(** A completion service that cannot be reached. *)
Definition offline_env : env :=
  {| requests_get := requests_get sample_env;
     html_paragraphs := html_paragraphs sample_env;
     uuid4_random := 0;
     db_commit := None;
     completions_create := fun _ => Raised (Exn RequestException "Connection refused");
     generate_password_hash := generate_password_hash sample_env;
     check_password_hash := check_password_hash sample_env;
     render_template := render_template sample_env;
     sql_bind := sql_bind sample_env;
     now := 0 |}.

(** A completion service that reports an error of its own. *)
Definition upstream_error_env : env :=
  {| requests_get := requests_get sample_env;
     html_paragraphs := html_paragraphs sample_env;
     uuid4_random := 0;
     db_commit := None;
     completions_create := fun _ => Raised (Exn APIError "Invalid API key provided");
     generate_password_hash := generate_password_hash sample_env;
     check_password_hash := check_password_hash sample_env;
     render_template := render_template sample_env;
     sql_bind := sql_bind sample_env;
     now := 0 |}.

(** A site that answers every fetch with a 404 page. *)
Definition not_found_env : env :=
  {| requests_get := fun _ => Returned (HttpResponse 404 "<p>Not Found</p>");
     html_paragraphs := fun _ => ["Not Found"];
     uuid4_random := 0;
     db_commit := None;
     completions_create := completions_create sample_env;
     generate_password_hash := generate_password_hash sample_env;
     check_password_hash := check_password_hash sample_env;
     render_template := render_template sample_env;
     sql_bind := sql_bind sample_env;
     now := 0 |}.

(** The same page, served with status 200. *)
Definition found_env : env :=
  {| requests_get := fun _ => Returned (HttpResponse 200 "<p>Not Found</p>");
     html_paragraphs := html_paragraphs not_found_env;
     uuid4_random := 0;
     db_commit := None;
     completions_create := completions_create sample_env;
     generate_password_hash := generate_password_hash sample_env;
     check_password_hash := check_password_hash sample_env;
     render_template := render_template sample_env;
     sql_bind := sql_bind sample_env;
     now := 0 |}.

(** A logged-in user whose row exists. *)
Definition alice : User := mkUser (JStr "alice@example.com") "pbkdf2" [].

Definition alice_state : state := State ∅ {[1 := alice]} (Some 1) ∅ [].

(** A URL that cannot be fetched. *)
Definition unreachable_env : env :=
  {| requests_get := fun _ => Raised (Exn RequestException "Name or service not known");
     html_paragraphs := html_paragraphs sample_env;
     uuid4_random := 0;
     db_commit := None;
     completions_create := completions_create sample_env;
     generate_password_hash := generate_password_hash sample_env;
     check_password_hash := check_password_hash sample_env;
     render_template := render_template sample_env;
     sql_bind := sql_bind sample_env;
     now := 0 |}.

(** Alice submits a URL; later a visitor chats and Alice submits another
    URL, for which the generator draws other random bytes. *)
Definition submit_request : request :=
  Request "10.0.0.1" (Some 1) RProcessUrl (Returned (JObj [("url", JStr "http://example.com/a")])) [].

Definition second_env : env :=
  {| requests_get := requests_get sample_env;
     html_paragraphs := fun _ => ["Another page"];
     uuid4_random := 1;
     db_commit := None;
     completions_create := completions_create sample_env;
     generate_password_hash := generate_password_hash sample_env;
     check_password_hash := check_password_hash sample_env;
     render_template := render_template sample_env;
     sql_bind := sql_bind sample_env;
     now := 5 |}.

(** Two submissions for which the generator draws the same bytes. *)
Definition same_draw_env : env :=
  {| requests_get := requests_get sample_env;
     html_paragraphs := fun _ => ["Another page"];
     uuid4_random := uuid4_random sample_env;
     db_commit := None;
     completions_create := completions_create sample_env;
     generate_password_hash := generate_password_hash sample_env;
     check_password_hash := check_password_hash sample_env;
     render_template := render_template sample_env;
     sql_bind := sql_bind sample_env;
     now := 5 |}.

Definition repeated_draw : list (env * request) :=
  [(sample_env, submit_request); (same_draw_env, submit_request)].

Definition chat_request_of (key : string) : request :=
  Request "10.0.0.2" None RChat (Returned (JObj [("input", JStr "hi"); ("api_key", JStr key)])) [].

Definition later_requests : list (env * request) :=
  [(sample_env, chat_request_of (new_api_key sample_env)); (second_env, submit_request)].

(** The sample outside world, with the clock at [seconds]. *)
Definition at_time (seconds : N) : env :=
  {| requests_get := requests_get sample_env;
     html_paragraphs := html_paragraphs sample_env;
     uuid4_random := uuid4_random sample_env;
     db_commit := db_commit sample_env;
     completions_create := completions_create sample_env;
     generate_password_hash := generate_password_hash sample_env;
     check_password_hash := check_password_hash sample_env;
     render_template := render_template sample_env;
     sql_bind := sql_bind sample_env;
     now := seconds |}.

(** Five chat messages of one visitor, ten seconds apart, with a request
    of another client in between. *)
Definition five_chats : list (env * request) :=
  [(at_time 0, chat_request_of "user_nope");
   (at_time 10, chat_request_of "user_nope");
   (at_time 15, submit_request);
   (at_time 20, chat_request_of "user_nope");
   (at_time 30, chat_request_of "user_nope");
   (at_time 40, chat_request_of "user_nope")].

(** A request to [process_url] that carries no session cookie. *)
Definition anonymous_submit : request :=
  Request "10.0.0.9" None RProcessUrl (Returned (JObj [("url", JStr "http://example.com/a")])) [].

(** A database whose commit fails. *)
Definition readonly_db_env : env :=
  {| requests_get := requests_get sample_env;
     html_paragraphs := html_paragraphs sample_env;
     uuid4_random := 0;
     db_commit := Some (Exn SQLAlchemyError "database is locked");
     completions_create := completions_create sample_env;
     generate_password_hash := generate_password_hash sample_env;
     check_password_hash := check_password_hash sample_env;
     render_template := render_template sample_env;
     sql_bind := sql_bind sample_env;
     now := 0 |}.

(** The body of Alice's submission, and a body that is a JSON list. *)
Definition url_body : outcome json := Returned (JObj [("url", JStr "http://example.com/a")]).

Definition list_body : outcome json := Returned (JArr [JStr "http://example.com/a"]).

(** A completion service that answers with no choice at all. *)
Definition silent_env : env :=
  {| requests_get := requests_get sample_env;
     html_paragraphs := html_paragraphs sample_env;
     uuid4_random := 0;
     db_commit := None;
     completions_create := fun _ => Returned [];
     generate_password_hash := generate_password_hash sample_env;
     check_password_hash := check_password_hash sample_env;
     render_template := render_template sample_env;
     sql_bind := sql_bind sample_env;
     now := 0 |}.

(** Chat bodies: a well-formed one, and one whose key is a JSON list. *)
Definition hello_body (key : string) : outcome json :=
  Returned (JObj [("input", JStr "hello"); ("api_key", JStr key)]).

Definition list_key_body : outcome json :=
  Returned (JObj [("input", JStr "hello"); ("api_key", JArr [JStr "user_0"])]).

(** The routes whose views only read. *)
Definition read_only (t : route) : Prop :=
  t = RIndex \/ t = RChatbotDesign \/ t = RChat \/ t = RUserApiKeys \/ t = RNoMatch.

(** Registration and login bodies for a new user. *)
Definition bob_body : outcome json :=
  Returned (JObj [("email", JStr "bob@example.com"); ("password", JStr "hunter2")]).

Definition alice_body : outcome json :=
  Returned (JObj [("email", JStr "alice@example.com"); ("password", JStr "secret")]).

(** A password checker that rejects every password. *)
Definition wrong_password_env : env :=
  {| requests_get := requests_get sample_env;
     html_paragraphs := html_paragraphs sample_env;
     uuid4_random := 0;
     db_commit := None;
     completions_create := completions_create sample_env;
     generate_password_hash := generate_password_hash sample_env;
     check_password_hash := fun _ _ => Returned false;
     render_template := render_template sample_env;
     sql_bind := sql_bind sample_env;
     now := 0 |}.


(** A page without any paragraph. *)
Definition blank_page_env : env :=
  {| requests_get := fun _ => Returned (HttpResponse 200 "<html><body></body></html>");
     html_paragraphs := fun _ => [];
     uuid4_random := 0;
     db_commit := None;
     completions_create := completions_create sample_env;
     generate_password_hash := generate_password_hash sample_env;
     check_password_hash := check_password_hash sample_env;
     render_template := render_template sample_env;
     sql_bind := sql_bind sample_env;
     now := 0 |}.

(** * Properties *)

(** Unfolds the monad so a handler run on a state computes. *)
Ltac run_py :=
  unfold try_except, bind, ret, raise, emit, modify, get_state, lift_outcome in *;
  simpl in *.

(** ** Validation in [chat] *)

(** A field that is absent from the body reads as [None], and both [None]
    and the empty string are falsy. *)
Lemma missing_or_empty_falsy fields key :
  assoc key fields = None \/ assoc key fields = Some (JStr EmptyString) ->
  truthy (default JNull (assoc key fields)) = false.
Proof. intros [-> | ->]; reflexivity. Qed.

(** C4: when the [input] field or the [api_key] field of the body is
    missing or empty (falsy), [chat] answers 400 with the error body
    "Input and API key are required" and leaves the state as it was: nothing
    is logged and no completion request is sent. *)
Theorem chat_rejects_missing_fields (e : env) (fields : list (string * json)) (st : state) :
  truthy (default JNull (assoc "input" fields)) = false \/
  truthy (default JNull (assoc "api_key" fields)) = false ->
  chat e (Returned (JObj fields)) st =
    (Returned (Response 400 (JsonBody (JObj [("error", JStr "Input and API key are required")]))), st)
  /\ completion_calls (trace (snd (chat e (Returned (JObj fields)) st))) = completion_calls (trace st).
Proof.
  intros H.
  assert (Hchat : chat e (Returned (JObj fields)) st =
    (Returned (Response 400 (JsonBody (JObj [("error", JStr "Input and API key are required")]))), st)).
  { unfold chat. run_py.
    destruct H as [-> | ->]; simpl.
    - reflexivity.
    - rewrite orb_true_r. reflexivity. }
  split; [exact Hchat | now rewrite Hchat].
Qed.

Lemma chat_rejects_missing_fields_witness :
  chat sample_env (Returned (JObj [("input", JStr EmptyString); ("api_key", JStr "user_0")]))
       sample_state =
    (Returned (Response 400 (JsonBody (JObj [("error", JStr "Input and API key are required")]))),
     sample_state).
Proof.
  apply (chat_rejects_missing_fields _ [("input", JStr EmptyString); ("api_key", JStr "user_0")]).
  left. reflexivity.
Defined.

(** ** The prompt built by [chat] *)

Lemma completion_calls_logged tr lvl prefix arg :
  completion_calls (tr ++ [Logged lvl prefix arg]) = completion_calls tr.
Proof. unfold completion_calls. rewrite omap_app. simpl. apply app_nil_r. Qed.

Lemma completion_calls_completion tr req :
  completion_calls (tr ++ [Completion req]) = completion_calls tr ++ [req].
Proof. unfold completion_calls. rewrite omap_app. reflexivity. Qed.

Lemma truthy_nonempty s : s <> EmptyString -> truthy (JStr s) = true.
Proof. intros H. simpl. apply negb_true_iff, String.eqb_neq, H. Qed.

(** What [chat] does once both fields passed the validation and the key
    is a string: it logs, sends one completion request, and then answers
    from the outcome of that request. *)
Lemma chat_valid_run (e : env) (data : outcome json) (st : state) (user_input : json) (api_key : string) :
  request_json_get data "input" = Returned user_input ->
  request_json_get data "api_key" = Returned (JStr api_key) ->
  truthy user_input = true ->
  api_key <> EmptyString ->
  let req := chat_request
               (chat_messages (default no_context (extracted_texts st !! api_key)) user_input) in
  let st1 := add_event (Completion req)
               (add_event (Logged INFO "Sending request to Together API with input: " user_input) st) in
  chat e data st =
    match completions_create e req with
    | Returned choices =>
        let st2 := add_event (Logged INFO "Received response from Together API: "
                                (JArr (map JStr choices))) st1 in
        match choices with
        | [] => chat_except (Exn IndexError "list index out of range") st2
        | first :: _ => (Returned (jsonify (JObj [("response", JStr first)]) 200), st2)
        end
    | Raised ex => chat_except ex st1
    end.
Proof.
  intros Hin Hkey Htrue Hne.
  destruct data as [[] | ?]; try discriminate.
  simpl in Hin, Hkey. injection Hin as Hin. injection Hkey as Hkey.
  unfold chat, create. run_py. rewrite Hin, Hkey, Htrue.
  rewrite (truthy_nonempty _ Hne). simpl.
  destruct (completions_create e _) as [choices | ex]; simpl; [| reflexivity].
  destruct choices; reflexivity.
Qed.

Lemma chat_except_trace ex st :
  completion_calls (trace (snd (chat_except ex st))) = completion_calls (trace st).
Proof.
  unfold chat_except, Together_APIError.
  destruct (exn_class_of ex); run_py; first [apply completion_calls_logged | reflexivity].
Qed.

(** C3: for every non-empty string key and every non-empty user input that
    [chat] receives, exactly one completion request is sent and its
    [messages] are exactly two: a system message "You are a chatbot trained
    on the following website content: " followed by the context (the text
    stored under the key, or the sentinel when the key is unknown), and a
    user message whose content is the user input unchanged.  In particular
    the request is sent for an unknown key, with the sentinel in the system
    message. *)
Theorem chat_sends_two_message_prompt (e : env) (data : outcome json) (st : state)
    (user_input : json) (api_key : string) :
  request_json_get data "input" = Returned user_input ->
  request_json_get data "api_key" = Returned (JStr api_key) ->
  truthy user_input = true ->
  api_key <> EmptyString ->
  let context :=
    match extracted_texts st !! api_key with
    | Some stored => stored
    | None => "No context available for this API key."
    end in
  let prompt :=
    [Message "system"
       (JStr ("You are a chatbot trained on the following website content: " +:+ context));
     Message "user" user_input] in
  exists req,
    messages req = prompt /\
    completion_calls (trace (snd (chat e data st))) = completion_calls (trace st) ++ [req].
Proof.
  intros Hin Hkey Htrue Hne context prompt.
  exists (chat_request prompt). split; [reflexivity |].
  rewrite (chat_valid_run e data st user_input api_key Hin Hkey Htrue Hne).
  assert (Hctx : default no_context (extracted_texts st !! api_key) = context).
  { subst context. destruct (extracted_texts st !! api_key); reflexivity. }
  rewrite Hctx. fold prompt. cbv zeta.
  destruct (completions_create e _) as [choices | ex].
  - destruct choices.
    + rewrite chat_except_trace. simpl.
      now rewrite completion_calls_logged, completion_calls_completion, completion_calls_logged.
    + simpl.
      now rewrite completion_calls_logged, completion_calls_completion, completion_calls_logged.
  - rewrite chat_except_trace. simpl.
    now rewrite completion_calls_completion, completion_calls_logged.
Qed.

Lemma chat_sends_two_message_prompt_witness :
  exists req,
    messages req =
      [Message "system"
         (JStr "You are a chatbot trained on the following website content: No context available for this API key.");
       Message "user" (JStr "hello")] /\
    completion_calls
      (trace (snd (chat sample_env (Returned (JObj [("input", JStr "hello"); ("api_key", JStr "user_nope")]))
                     sample_state))) = [req].
Proof.
  apply (chat_sends_two_message_prompt sample_env
           (Returned (JObj [("input", JStr "hello"); ("api_key", JStr "user_nope")]))
           sample_state (JStr "hello") "user_nope");
    [reflexivity | reflexivity | reflexivity | discriminate].
Defined.

(** ** Lookup of an unknown key *)

(** C2: for a key that is absent from [extracted_texts], the lookup of
    [chat] returns the sentinel "No context available for this API key." as
    an ordinary value, not an exception; [chat] puts it into the system
    message and, when the completion service answers, replies 200 with the
    first choice: the missing context is not reported as a failure. *)
Theorem absent_key_reads_sentinel (e : env) (data : outcome json) (st : state)
    (user_input : json) (api_key : string) (reply : string) (others : list string) :
  extracted_texts st !! api_key = None ->
  request_json_get data "input" = Returned user_input ->
  request_json_get data "api_key" = Returned (JStr api_key) ->
  truthy user_input = true ->
  api_key <> EmptyString ->
  completions_create e
    (chat_request
       [Message "system"
          (JStr "You are a chatbot trained on the following website content: No context available for this API key.");
        Message "user" user_input]) = Returned (reply :: others) ->
  dict_get (extracted_texts st) (JStr api_key) no_context =
    Returned "No context available for this API key."
  /\ fst (chat e data st) = Returned (Response 200 (JsonBody (JObj [("response", JStr reply)]))).
Proof.
  intros Habsent Hin Hkey Htrue Hne Hreply. split.
  - simpl. now rewrite Habsent.
  - rewrite (chat_valid_run e data st user_input api_key Hin Hkey Htrue Hne).
    rewrite Habsent. cbv zeta.
    change (chat_messages (default no_context None) user_input) with
      [Message "system"
         (JStr "You are a chatbot trained on the following website content: No context available for this API key.");
       Message "user" user_input].
    now rewrite Hreply.
Qed.

Lemma absent_key_reads_sentinel_witness :
  dict_get (extracted_texts sample_state) (JStr "user_nope") no_context =
    Returned "No context available for this API key."
  /\ fst (chat sample_env (Returned (JObj [("input", JStr "hello"); ("api_key", JStr "user_nope")]))
            sample_state) =
     Returned (Response 200 (JsonBody (JObj [("response", JStr "Hi there")]))).
Proof.
  apply (absent_key_reads_sentinel sample_env
           (Returned (JObj [("input", JStr "hello"); ("api_key", JStr "user_nope")]))
           sample_state (JStr "hello") "user_nope" "Hi there" []);
    [reflexivity | reflexivity | reflexivity | reflexivity | discriminate | reflexivity].
Defined.

(** ** Failures of the completion call *)

(** What the [except] clauses make of an exception: a transport
    exception of [requests] is answered 503; for any other exception the
    second clause is evaluated, and that raises. *)
Lemma chat_except_run (ex : exn) (st : state) :
  chat_except ex st =
    if decide (exn_class_of ex = RequestException)
    then (Returned (jsonify (error_body ("Network error: " +:+ exn_str ex)) 503),
          add_event (Logged ERROR "Network error in chat route: " (JStr (exn_str ex))) st)
    else (Raised (Exn AttributeError "type object 'Together' has no attribute 'APIError'"), st).
Proof. unfold chat_except, Together_APIError. destruct (exn_class_of ex); reflexivity. Qed.

(** C5, at the failing input: a visitor chats while the completion service
    reports an error.  The first [except] clause does not match, the
    expression [Together.APIError] of the second raises [AttributeError],
    and that exception leaves the handler: the visitor gets the HTML 500
    page of the server, not the JSON body with an [error] field, and the
    same happens for every failure that is not a transport exception of
    [requests]. *)
Theorem chat_upstream_error_escapes :
  fst (chat upstream_error_env (hello_body "user_nope") sample_state) =
    Raised (Exn AttributeError "type object 'Together' has no attribute 'APIError'")
  /\ fst (serve upstream_error_env
            (Request "10.0.0.2" None RChat (hello_body "user_nope") []) sample_state) =
     Response 500 (HtmlBody "Internal Server Error")
  /\ fst (chat silent_env (hello_body "user_nope") sample_state) =
     Raised (Exn AttributeError "type object 'Together' has no attribute 'APIError'").
Proof. repeat split. Qed.

(** ** The widget markup *)

(** C10: for every request to [chatbot_design] whose [api_key] parameter is
    a non-empty string, and in every state (whether or not the key was
    ever generated or has a stored context), the handler answers 200 with
    the widget markup in which the key stands unchanged between the two
    fixed parts of the template; the state, and with it [extracted_texts]
    and the user table, plays no part in the answer and is left as it
    was. *)
Theorem chatbot_design_embeds_any_key (query : list (string * string)) (api_key : string)
    (st : state) :
  assoc "api_key" query = Some api_key ->
  api_key <> EmptyString ->
  chatbot_design query st =
    (Returned (Response 200 (HtmlBody (design_before_key +:+ api_key +:+ design_after_key))), st)
  /\ forall st' : state, fst (chatbot_design query st') = fst (chatbot_design query st).
Proof.
  intros Hget Hne. unfold chatbot_design. rewrite Hget.
  apply String.eqb_neq in Hne. rewrite Hne. split; reflexivity.
Qed.

Lemma chatbot_design_embeds_any_key_witness :
  chatbot_design [("api_key", "never-issued")] sample_state =
    (Returned (Response 200
       (HtmlBody (design_before_key +:+ "never-issued" +:+ design_after_key))), sample_state)
  /\ forall st' : state,
       fst (chatbot_design [("api_key", "never-issued")] st') =
       fst (chatbot_design [("api_key", "never-issued")] sample_state).
Proof.
  apply (chatbot_design_embeds_any_key [("api_key", "never-issued")] "never-issued" sample_state);
    [reflexivity | discriminate].
Defined.

(** ** The content extractor *)

(** C8, as stated, fails: on a 404 response [extract_text_from_url]
    returns the text of the error page. *)
Lemma extract_succeeds_on_404 :
  requests_get not_found_env (JStr "http://example.com/missing") =
    Returned (HttpResponse 404 "<p>Not Found</p>")
  /\ is_2xx 404 = false
  /\ fst (extract_text_from_url not_found_env (JStr "http://example.com/missing") sample_state) =
     Returned "Not Found".
Proof. repeat split. Qed.

(** C8, amended: [extract_text_from_url] fails with the exception of the
    fetch when [requests.get] raises (a network failure, or a timeout
    reported by the transport), and it succeeds only when the fetch
    returned a response, with the paragraph texts of that response joined
    by single spaces.  The status code is never looked at: a response is
    treated exactly like any other response with the same body, so a
    non-2xx page is extracted like a 2xx one. *)
Theorem extract_ignores_status (e e' : env) (url : json) (st : state) :
  (forall ex, requests_get e url = Raised ex ->
     fst (extract_text_from_url e url st) = Raised ex)
  /\ (forall extracted, fst (extract_text_from_url e url st) = Returned extracted ->
        exists page,
          requests_get e url = Returned page
          /\ extracted = String.concat " " (html_paragraphs e (text page)))
  /\ (forall code code' body,
        requests_get e url = Returned (HttpResponse code body) ->
        requests_get e' url = Returned (HttpResponse code' body) ->
        html_paragraphs e' body = html_paragraphs e body ->
        fst (extract_text_from_url e' url st) = fst (extract_text_from_url e url st)).
Proof.
  unfold extract_text_from_url. run_py.
  destruct (requests_get e url) as [page | ex0]; simpl; repeat split.
  - intros ex H. discriminate H.
  - intros extracted H. injection H as <-. eauto.
  - intros code code' body H H' Hsame. injection H as ->. rewrite H'. simpl.
    now rewrite Hsame.
  - intros ex H. now injection H as ->.
  - intros extracted H. discriminate H.
  - intros code code' body H. discriminate H.
Qed.

Lemma extract_ignores_status_witness :
  fst (extract_text_from_url not_found_env (JStr "http://example.com/missing") sample_state) =
  fst (extract_text_from_url found_env (JStr "http://example.com/missing") sample_state).
Proof.
  apply (proj2 (proj2 (extract_ignores_status found_env not_found_env
                         (JStr "http://example.com/missing") sample_state))
           200 404 "<p>Not Found</p>");
    reflexivity.
Defined.

(** ** [process_url]: the store and the key list *)

(** The ways through [process_url] for a logged-in user who sent a URL:
    the fetch raises; the user row is gone; the commit raises; or
    everything succeeds.  The store is written before the table is. *)
Lemma process_url_run (e : env) (data : outcome json) (st : state) (user_id : nat) (url : json) :
  session st = Some user_id ->
  request_json_get data "url" = Returned url ->
  truthy url = true ->
  let failed (ex : exn) (s : state) :=
    (Returned (jsonify (error_body (exn_str ex)) 500),
     add_event (Logged ERROR "Error in process_url: " (JStr (exn_str ex))) s) in
  let st1 := add_event (Fetched url) st in
  process_url e data st =
    match requests_get e url with
    | Raised ex => failed ex st1
    | Returned page =>
        let st2 :=
          set_extracted_texts
            (insert (new_api_key e) (String.concat " " (html_paragraphs e (text page)))) st1 in
        match users st !! user_id with
        | None => failed (Exn AttributeError "'NoneType' object has no attribute 'api_keys'") st2
        | Some user =>
            match db_commit e with
            | Some ex => failed ex st2
            | None =>
                (Returned (jsonify (processing_complete (new_api_key e)) 200),
                 add_event (Logged INFO "Sending response: " (processing_complete (new_api_key e)))
                   (set_users
                      (insert user_id
                         (mkUser (email user) (password user)
                            (api_keys user ++ [new_api_key e]))) st2))
            end
        end
    end.
Proof.
  intros Hs Hurl Htrue.
  destruct data as [[] | ?]; try discriminate. simpl in Hurl. injection Hurl as Hurl.
  unfold process_url, extract_text_from_url, commit. run_py.
  rewrite Hs. simpl. rewrite Hurl, Htrue. simpl.
  destruct (requests_get e url) as [page | ex]; simpl; [| reflexivity].
  destruct (users st !! user_id) as [user |]; simpl; [| reflexivity].
  destruct (db_commit e) as [ex |]; reflexivity.
Qed.

(** Without a session, or without a URL, [process_url] changes nothing. *)
Lemma process_url_early_exit (e : env) (data : outcome json) (st : state) :
  session st = None \/
  (exists url, request_json_get data "url" = Returned url /\ truthy url = false) \/
  (exists ex, request_json_get data "url" = Raised ex) ->
  snd (process_url e data st) = st.
Proof.
  intros H. unfold process_url. run_py.
  destruct (session st) as [user_id |] eqn:Hs; [| reflexivity].
  destruct H as [H | [(url & Hurl & Hf) | (ex & Hex)]]; [discriminate | |].
  - rewrite Hurl. simpl. now rewrite Hf.
  - now rewrite Hex.
Qed.

(** C6: after any execution of [process_url], the key list of every user
    is either what it was, or what it was with the new key appended, and
    in that case [extracted_texts] already binds that key (the store is
    written before the list is).  When the fetch of the extraction raises,
    the answer is the 500 error and neither [extracted_texts] nor the user
    table has changed. *)
Theorem process_url_appends_only_stored_keys (e : env) (data : outcome json) (st : state) :
  (forall (uid : nat) (row : User),
     users (snd (process_url e data st)) !! uid = Some row ->
     users st !! uid = Some row
     \/ exists old,
          users st !! uid = Some old
          /\ api_keys row = api_keys old ++ [new_api_key e]
          /\ is_Some (extracted_texts (snd (process_url e data st)) !! new_api_key e))
  /\ (forall (user_id : nat) (url : json) (ex : exn),
        session st = Some user_id ->
        request_json_get data "url" = Returned url ->
        truthy url = true ->
        requests_get e url = Raised ex ->
        fst (process_url e data st) =
          Returned (Response 500 (JsonBody (JObj [("error", JStr (exn_str ex))])))
        /\ extracted_texts (snd (process_url e data st)) = extracted_texts st
        /\ users (snd (process_url e data st)) = users st).
Proof.
  split.
  - intros uid row Hrow.
    destruct (session st) as [user_id |] eqn:Hs;
      [| rewrite process_url_early_exit in Hrow by auto; auto].
    destruct (request_json_get data "url") as [url | ex] eqn:Hurl;
      [| rewrite process_url_early_exit in Hrow by eauto; auto].
    destruct (truthy url) eqn:Htrue;
      [| rewrite process_url_early_exit in Hrow by eauto; auto].
    rewrite (process_url_run e data st user_id url Hs Hurl Htrue) in Hrow |- *.
    cbv zeta in Hrow |- *.
    destruct (requests_get e url) as [page | ex]; [| auto].
    destruct (users st !! user_id) as [user |] eqn:Huser; [| auto].
    destruct (db_commit e) as [ex |]; [auto |].
    simpl in Hrow |- *.
    destruct (decide (user_id = uid)) as [-> | Hne].
    + rewrite lookup_insert_eq in Hrow. injection Hrow as <-.
      right. exists user. simpl. rewrite lookup_insert_eq. eauto.
    + rewrite lookup_insert_ne in Hrow by done. auto.
  - intros user_id url ex Hs Hurl Htrue Hraise.
    rewrite (process_url_run e data st user_id url Hs Hurl Htrue).
    cbv zeta. rewrite Hraise. auto.
Qed.

Lemma process_url_appends_only_stored_keys_witness :
  fst (process_url unreachable_env (Returned (JObj [("url", JStr "http://nowhere.invalid/")])) alice_state) =
    Returned (Response 500 (JsonBody (JObj [("error", JStr "Name or service not known")])))
  /\ extracted_texts
       (snd (process_url unreachable_env (Returned (JObj [("url", JStr "http://nowhere.invalid/")]))
               alice_state)) = extracted_texts alice_state
  /\ users
       (snd (process_url unreachable_env (Returned (JObj [("url", JStr "http://nowhere.invalid/")]))
               alice_state)) = users alice_state.
Proof.
  apply (proj2 (process_url_appends_only_stored_keys unreachable_env
                  (Returned (JObj [("url", JStr "http://nowhere.invalid/")])) alice_state)
           1 (JStr "http://nowhere.invalid/") (Exn RequestException "Name or service not known"));
    reflexivity.
Defined.

(** ** Generated keys *)

Lemma hex_digit_is_hex (d : N) : is_hex_char (hex_digit d) = true.
Proof.
  unfold hex_digit. remember (N.to_nat d) as x eqn:Hx. clear Hx.
  do 16 (destruct x as [| x]; [reflexivity |]).
  simpl. destruct x; reflexivity.
Qed.

Lemma hex_digit_inj (a b : N) :
  (a < 16)%N -> (b < 16)%N -> hex_digit a = hex_digit b -> a = b.
Proof.
  intros Ha Hb. unfold hex_digit. intros H.
  apply N2Nat.inj.
  assert (Hx : N.to_nat a < 16) by lia. assert (Hy : N.to_nat b < 16) by lia.
  revert H Hx Hy. generalize (N.to_nat a) (N.to_nat b). intros x y H Hx Hy.
  do 16 (destruct x as [| x];
         [ do 16 (destruct y as [| y]; [first [reflexivity | discriminate H] |]); lia |]).
  lia.
Qed.

Lemma hex_digits_length (w : nat) (n : N) : length (hex_digits w n) = w.
Proof.
  revert n. induction w as [| w IH]; intros n; simpl; [reflexivity |].
  rewrite length_app, IH. simpl. lia.
Qed.

Lemma hex_digits_are_hex (w : nat) (n : N) : forallb is_hex_char (hex_digits w n) = true.
Proof.
  revert n. induction w as [| w IH]; intros n; simpl; [reflexivity |].
  rewrite forallb_app, IH. simpl. now rewrite hex_digit_is_hex.
Qed.

Lemma hex_digits_inj (w : nat) (n m : N) :
  (n < 16 ^ N.of_nat w)%N -> (m < 16 ^ N.of_nat w)%N ->
  hex_digits w n = hex_digits w m -> n = m.
Proof.
  revert n m. induction w as [| w IH]; intros n m Hn Hm H.
  - simpl in Hn, Hm. lia.
  - simpl in H. apply app_inj_tail in H as [Hhigh Hlow].
    rewrite Nat2N.inj_succ, N.pow_succ_r' in Hn, Hm.
    assert (Hq : (n / 16 = m / 16)%N).
    { apply IH; [apply N.Div0.div_lt_upper_bound | apply N.Div0.div_lt_upper_bound | exact Hhigh];
        lia. }
    assert (Hr : (n mod 16 = m mod 16)%N).
    { apply hex_digit_inj; [apply N.mod_lt | apply N.mod_lt | exact Hlow]; lia. }
    rewrite (N.div_mod' n 16), (N.div_mod' m 16). now rewrite Hq, Hr.
Qed.

Lemma string_of_list_ascii_length (l : list ascii) :
  String.length (string_of_list_ascii l) = length l.
Proof. induction l as [| c l IH]; simpl; [reflexivity | now rewrite IH]. Qed.

Lemma lor_lt_pow2 (a b n : N) :
  (a < 2 ^ n)%N -> (b < 2 ^ n)%N -> (N.lor a b < 2 ^ n)%N.
Proof.
  intros Ha Hb.
  destruct (N.eq_dec (N.lor a b) 0%N) as [-> | Hpos]; [lia |].
  apply N.log2_lt_pow2; [lia |].
  rewrite N.log2_lor.
  destruct (N.eq_dec n 0%N) as [-> | Hn].
  - simpl in Ha, Hb. assert (a = 0%N) by lia. assert (b = 0%N) by lia. subst.
    now contradiction Hpos.
  - assert (Hla : (N.log2 a < n)%N).
    { destruct (N.eq_dec a 0%N) as [-> | ?]; [simpl; lia | apply N.log2_lt_pow2; lia]. }
    assert (Hlb : (N.log2 b < n)%N).
    { destruct (N.eq_dec b 0%N) as [-> | ?]; [simpl; lia | apply N.log2_lt_pow2; lia]. }
    lia.
Qed.

(** A UUID is a 128-bit integer. *)
Lemma uuid4_bound (random : N) : (uuid4 random < 2 ^ 128)%N.
Proof.
  unfold uuid4.
  apply lor_lt_pow2; [| reflexivity].
  eapply N.le_lt_trans; [apply N.ldiff_le_l |].
  apply lor_lt_pow2; [| reflexivity].
  eapply N.le_lt_trans; [apply N.ldiff_le_l |].
  apply N.mod_lt. discriminate.
Qed.

Lemma uuid_hex_inj (a b : N) :
  (a < 2 ^ 128)%N -> (b < 2 ^ 128)%N -> uuid_hex a = uuid_hex b -> a = b.
Proof.
  intros Ha Hb H. unfold uuid_hex in H.
  apply (f_equal list_ascii_of_string) in H.
  rewrite !list_ascii_of_string_of_list_ascii in H.
  apply (hex_digits_inj 32); [exact Ha | exact Hb | exact H].
Qed.

Lemma new_api_key_well_formed (e : env) : well_formed_key (new_api_key e).
Proof.
  exists (uuid_hex (uuid4 (uuid4_random e))). split; [reflexivity |].
  unfold uuid_hex. split.
  - now rewrite string_of_list_ascii_length, hex_digits_length.
  - rewrite list_ascii_of_string_of_list_ascii. apply hex_digits_are_hex.
Qed.

Lemma append_inj_r (prefix a b : string) : prefix +:+ a = prefix +:+ b -> a = b.
Proof.
  induction prefix as [| c prefix IH]; simpl; intros H; [exact H |].
  injection H as H. auto.
Qed.

Lemma new_api_key_inj (e1 e2 : env) :
  new_api_key e1 = new_api_key e2 ->
  uuid4 (uuid4_random e1) = uuid4 (uuid4_random e2).
Proof.
  unfold new_api_key. intros H. apply append_inj_r in H.
  apply uuid_hex_inj; [apply uuid4_bound | apply uuid4_bound | exact H].
Qed.

(** ** What a handler leaves alone *)

Section Frame.
Context {A : Type} (proj : state -> A).
Hypothesis proj_add_event : forall ev st, proj (add_event ev st) = proj st.

Lemma preserves_ret {B} (b : B) : preserves proj (ret b).
Proof. intros st. reflexivity. Qed.

Lemma preserves_raise {B} (ex : exn) : preserves proj (@raise B ex).
Proof. intros st. reflexivity. Qed.

Lemma preserves_get_state : preserves proj get_state.
Proof. intros st. reflexivity. Qed.

Lemma preserves_lift_outcome {B} (o : outcome B) : preserves proj (lift_outcome o).
Proof. destruct o; intros st; reflexivity. Qed.

Lemma preserves_emit (ev : event) : preserves proj (emit ev).
Proof. intros st. apply proj_add_event. Qed.

Lemma preserves_modify (f : state -> state) :
  (forall st, proj (f st) = proj st) -> preserves proj (modify f).
Proof. intros H st. apply H. Qed.

Lemma preserves_bind {B C} (m : M B) (k : B -> M C) :
  preserves proj m -> (forall b, preserves proj (k b)) -> preserves proj (bind m k).
Proof.
  intros Hm Hk st. unfold bind.
  destruct (m st) as [[b | ex] st'] eqn:Hrun.
  - rewrite Hk. specialize (Hm st). now rewrite Hrun in Hm.
  - specialize (Hm st). now rewrite Hrun in Hm.
Qed.

Lemma preserves_try_except {B} (body : M B) (handler : exn -> M B) :
  preserves proj body -> (forall ex, preserves proj (handler ex)) ->
  preserves proj (try_except body handler).
Proof.
  intros Hm Hk st. unfold try_except.
  destruct (body st) as [[b | ex] st'] eqn:Hrun.
  - specialize (Hm st). now rewrite Hrun in Hm.
  - rewrite Hk. specialize (Hm st). now rewrite Hrun in Hm.
Qed.

End Frame.

(** Splits a handler into its steps, down to the state updates. *)
Ltac frame :=
  repeat first
    [ apply preserves_ret
    | apply preserves_raise
    | apply preserves_get_state
    | apply preserves_lift_outcome
    | apply preserves_emit; [reflexivity]
    | apply preserves_bind; [| intros ?]
    | apply preserves_try_except; [| intros ?]
    | apply preserves_modify; reflexivity
    | case_match ].

Lemma chat_except_preserves {A} (proj : state -> A) (ex : exn) :
  (forall ev st, proj (add_event ev st) = proj st) -> preserves proj (chat_except ex).
Proof. intros H. unfold chat_except. frame; apply preserves_emit; exact H. Qed.

(** [commit] writes the user table and nothing else. *)
Lemma commit_preserves_texts e change : preserves extracted_texts (commit e change).
Proof. unfold commit. frame. Qed.

Lemma commit_preserves_hits e change : preserves hits (commit e change).
Proof. unfold commit. frame. Qed.

(** Only [process_url] writes to [extracted_texts]. *)
Lemma view_preserves_texts (e : env) (r : request) :
  target r <> RProcessUrl -> preserves extracted_texts (view e r).
Proof.
  intros Hroute. unfold view.
  destruct (target r); try congruence;
    unfold index, register, add_user, login, logout, chatbot_design, chat, create,
      get_user_api_keys;
    frame; first [apply commit_preserves_texts | now apply chat_except_preserves].
Qed.

(** No view touches the counters of the limiter. *)
Lemma view_preserves_hits (e : env) (r : request) : preserves hits (view e r).
Proof.
  unfold view.
  destruct (target r);
    unfold index, register, add_user, login, logout, chatbot_design, chat, create,
      get_user_api_keys, process_url, extract_text_from_url;
    frame; first [apply commit_preserves_hits | now apply chat_except_preserves].
Qed.

(** ** The stored context *)

(** [process_url] leaves [extracted_texts] as it was or binds the new key. *)
Lemma process_url_texts (e : env) (data : outcome json) (st : state) :
  extracted_texts (snd (process_url e data st)) = extracted_texts st
  \/ exists stored,
       extracted_texts (snd (process_url e data st)) =
         <[new_api_key e := stored]> (extracted_texts st).
Proof.
  destruct (session st) as [user_id |] eqn:Hs;
    [| rewrite process_url_early_exit by auto; auto].
  destruct (request_json_get data "url") as [url | ex] eqn:Hurl;
    [| rewrite process_url_early_exit by eauto; auto].
  destruct (truthy url) eqn:Htrue;
    [| rewrite process_url_early_exit by eauto; auto].
  rewrite (process_url_run e data st user_id url Hs Hurl Htrue). cbv zeta.
  destruct (requests_get e url) as [page | ex]; [| auto].
  right. eexists.
  destruct (users st !! user_id) as [user |]; [| reflexivity].
  destruct (db_commit e) as [ex |]; reflexivity.
Qed.

Lemma serve_texts (e : env) (r : request) (st : state) :
  extracted_texts (snd (serve e r st)) = extracted_texts st
  \/ (target r = RProcessUrl
      /\ exists stored,
           extracted_texts (snd (serve e r st)) =
             <[new_api_key e := stored]> (extracted_texts st)).
Proof.
  unfold serve.
  destruct (allow _ _ _ _ _) as [ok h]. destruct ok; [| auto].
  fold (admitted r h st).
  assert (Hsnd : forall o s, snd (match (o, s) : outcome response * state with
                                  | (Returned resp, st') => (resp, st')
                                  | (Raised ex, st') => (error_page ex, st')
                                  end) = s) by (intros [] ?; reflexivity).
  destruct (view e r (admitted r h st)) as [o s] eqn:Hview. rewrite Hsnd.
  assert (Hs : s = snd (view e r (admitted r h st))) by now rewrite Hview.
  destruct (decide (target r = RProcessUrl)) as [Hroute | Hroute].
  - unfold view in Hs. rewrite Hroute in Hs. subst s.
    destruct (process_url_texts e (json_body r) (admitted r h st)) as [H | [stored H]];
      [left | right; split; [exact Hroute | exists stored]]; exact H.
  - left. subst s. exact (view_preserves_texts e r Hroute (admitted r h st)).
Qed.

(** The state after a list of requests. *)
Lemma run_cons (e : env) (r : request) (rest : list (env * request)) (st : state) :
  snd (run ((e, r) :: rest) st) = snd (run rest (snd (serve e r st))).
Proof.
  simpl. destruct (serve e r st) as [resp st']. simpl.
  now destruct (run rest st') as [resps st''].
Qed.






(** ** The keys handed out *)

Section Answers.
Variable P : response -> Prop.

Lemma answers_ret (resp : response) : P resp -> answers P (ret resp).
Proof. intros H st resp' st' Heq. injection Heq as <- _. exact H. Qed.

Lemma answers_raise (ex : exn) : answers P (raise ex).
Proof. intros st resp st' Heq. discriminate Heq. Qed.

Lemma answers_bind {B} (m : M B) (k : B -> M response) :
  (forall b, answers P (k b)) -> answers P (bind m k).
Proof.
  intros Hk st resp st' Heq. unfold bind in Heq.
  destruct (m st) as [[b | ex] st1]; [eapply Hk; exact Heq | discriminate Heq].
Qed.

Lemma answers_try_except (body : M response) (handler : exn -> M response) :
  answers P body -> (forall ex, answers P (handler ex)) -> answers P (try_except body handler).
Proof.
  intros Hbody Hhandler st resp st' Heq. unfold try_except in Heq.
  destruct (body st) as [[resp1 | ex] st1] eqn:Hrun.
  - injection Heq as <- <-. eapply Hbody; exact Hrun.
  - eapply Hhandler; exact Heq.
Qed.

End Answers.

(** Splits a handler into the responses it can return. *)
Ltac answer :=
  repeat first
    [ apply answers_ret; reflexivity
    | apply answers_raise
    | apply answers_bind; intros ?
    | apply answers_try_except; [| intros ?]
    | case_match ].

(** Only [process_url] answers with an [api_key] field. *)
Lemma view_returns_no_key (e : env) (r : request) :
  target r <> RProcessUrl -> answers (fun resp => returned_key resp = None) (view e r).
Proof.
  intros Hroute. unfold view.
  destruct (target r); try congruence;
    unfold index, register, login, logout, chatbot_design, chat, chat_except,
      get_user_api_keys;
    answer.
Qed.

Arguments new_api_key : simpl never.

(** The key in an answer of [process_url] is the one it generated. *)
Lemma process_url_returns_new_key (e : env) (data : outcome json) :
  answers (fun resp => forall key, returned_key resp = Some key -> key = new_api_key e)
    (process_url e data).
Proof.
  unfold process_url.
  repeat first
    [ apply answers_ret; intros key Hkey;
      unfold returned_key, jsonify, error_body in Hkey; simpl in Hkey; congruence
    | apply answers_raise
    | apply answers_bind; intros ?
    | apply answers_try_except; [| intros ?]
    | case_match ].
Qed.

Lemma serve_returned_key (e : env) (r : request) (st : state) (key : string) :
  returned_key (fst (serve e r st)) = Some key ->
  target r = RProcessUrl /\ key = new_api_key e.
Proof.
  unfold serve. destruct (allow _ _ _ _ _) as [ok h]. destruct ok; [| discriminate].
  destruct (view e r _) as [[resp | ex] st'] eqn:Hview;
    [| unfold error_page; destruct (exn_class_of ex); discriminate].
  simpl. intros Hkey.
  destruct (decide (target r = RProcessUrl)) as [Hroute | Hroute].
  - split; [exact Hroute |].
    unfold view in Hview. rewrite Hroute in Hview.
    exact (process_url_returns_new_key e _ _ _ _ Hview key Hkey).
  - pose proof (view_returns_no_key e r Hroute _ _ _ Hview) as Hnone.
    simpl in Hnone. congruence.
Qed.

(** The keys handed out during a run are among those generated for its
    submissions, in order. *)
Lemma run_keys_sublist (reqs : list (env * request)) (st : state) :
  sublist (omap returned_key (fst (run reqs st))) (new_api_key <$> submissions reqs).
Proof.
  revert st. induction reqs as [| [e r] rest IH]; intros st; [constructor |].
  simpl. destruct (serve e r st) as [resp st'] eqn:Hserve.
  specialize (IH st'). destruct (run rest st') as [resps st'']. simpl in IH |- *.
  unfold submissions. rewrite filter_cons. simpl.
  destruct (returned_key resp) as [key |] eqn:Hkey.
  - assert (Hk : returned_key (fst (serve e r st)) = Some key) by now rewrite Hserve.
    apply serve_returned_key in Hk as [Hroute ->].
    rewrite decide_True by exact Hroute. simpl. now apply sublist_skip.
  - destruct (decide (target r = RProcessUrl)); simpl; [apply sublist_cons |]; exact IH.
Qed.

Lemma new_api_keys_NoDup (es : list env) :
  NoDup ((fun e => uuid4 (uuid4_random e)) <$> es) -> NoDup (new_api_key <$> es).
Proof.
  induction es as [| e es IH]; simpl; intros H; [constructor |].
  apply NoDup_cons in H as [Hnotin Hrest].
  apply NoDup_cons. split; [| auto].
  intros Hin. apply Hnotin.
  apply list_elem_of_fmap in Hin as (e' & Heq & Hin).
  apply list_elem_of_fmap. exists e'. split; [now apply new_api_key_inj | exact Hin].
Qed.

(** The answers of [process_url] with status 200 carry the generated key. *)
Lemma process_url_200_has_key (e : env) (data : outcome json) :
  answers (fun resp => status resp = 200 -> returned_key resp = Some (new_api_key e))
    (process_url e data).
Proof.
  unfold process_url.
  repeat first
    [ apply answers_ret; intros Hstatus; first [discriminate Hstatus | reflexivity]
    | apply answers_raise
    | apply answers_bind; intros ?
    | apply answers_try_except; [| intros ?]
    | case_match ].
Qed.

(** C9, as stated, fails: [process_url] does not look whether the key it
    generated is already in use.  Two submissions for which [uuid.uuid4()]
    draws the same bytes are handed the same key, and the second text
    replaces the first. *)
Lemma same_draw_same_key :
  omap returned_key (fst (run repeated_draw alice_state)) =
    ["user_00000000000040008000000000000000"; "user_00000000000040008000000000000000"]
  /\ extracted_texts (snd (run repeated_draw alice_state))
       !! "user_00000000000040008000000000000000" = Some "Another page".
Proof. vm_compute. split; reflexivity. Qed.

(** C9, amended: every key handed out by [process_url] is [user_] followed
    by 32 lower-case hexadecimal digits, and it is the key of the UUID
    drawn for that request: a submission that succeeds is answered with
    exactly that key, two draws give the same key only if they are the
    same UUID, and so the keys handed out during a run are pairwise
    distinct whenever the UUIDs drawn for its submissions are.  Nothing
    more is checked. *)
Theorem handed_out_keys_follow_the_draws :
  (forall (e : env) (data : outcome json) (st : state) (user_id : nat) (url : json)
          (page : http_response) (row : User),
     session st = Some user_id ->
     request_json_get data "url" = Returned url ->
     truthy url = true ->
     requests_get e url = Returned page ->
     users st !! user_id = Some row ->
     db_commit e = None ->
     exists resp,
       fst (process_url e data st) = Returned resp
       /\ status resp = 200
       /\ returned_key resp = Some ("user_" +:+ uuid_hex (uuid4 (uuid4_random e))))
  /\ (forall (e : env) (r : request) (st : state),
        target r = RProcessUrl ->
        status (fst (serve e r st)) = 200 ->
        returned_key (fst (serve e r st)) =
          Some ("user_" +:+ uuid_hex (uuid4 (uuid4_random e))))
  /\ (forall e1 e2 : env,
        new_api_key e1 = new_api_key e2 <->
        uuid4 (uuid4_random e1) = uuid4 (uuid4_random e2))
  /\ (forall (reqs : list (env * request)) (st : state),
        Forall well_formed_key (omap returned_key (fst (run reqs st))))
  /\ (forall (reqs : list (env * request)) (st : state),
        NoDup ((fun e => uuid4 (uuid4_random e)) <$> submissions reqs) ->
        NoDup (omap returned_key (fst (run reqs st)))).
Proof.
  split; [| split; [| split; [| split]]].
  - intros e data st user_id url page row Hs Hurl Htrue Hpage Hrow Hcommit.
    rewrite (process_url_run e data st user_id url Hs Hurl Htrue). cbv zeta.
    rewrite Hpage, Hrow, Hcommit. simpl. eexists. split; [reflexivity |]. split; reflexivity.
  - intros e r st Hroute. unfold serve.
    destruct (allow _ _ _ _ _) as [ok h]. destruct ok; [| discriminate].
    unfold view. rewrite Hroute.
    destruct (process_url e (json_body r) _) as [[resp | ex] st'] eqn:Hrun.
    + simpl. exact (process_url_200_has_key e _ _ _ _ Hrun).
    + simpl. unfold error_page. destruct (exn_class_of ex); discriminate.
  - intros e1 e2. split; [apply new_api_key_inj |].
    intros H. unfold new_api_key. now rewrite H.
  - intros reqs st. pose proof (run_keys_sublist reqs st) as Hsub.
    eapply Forall_impl with (P := fun key => key ∈ new_api_key <$> submissions reqs).
    + apply Forall_forall. intros key Hin. eapply elem_of_sublist; eauto.
    + intros key Hin. apply list_elem_of_fmap in Hin as (e & -> & _).
      apply new_api_key_well_formed.
  - intros reqs st Hdistinct. pose proof (run_keys_sublist reqs st) as Hsub.
    eapply sublist_NoDup; [| exact Hsub]. now apply new_api_keys_NoDup.
Qed.

Lemma handed_out_keys_follow_the_draws_witness :
  (exists resp,
     fst (process_url sample_env url_body alice_state) = Returned resp
     /\ status resp = 200
     /\ returned_key resp = Some ("user_" +:+ uuid_hex (uuid4 (uuid4_random sample_env))))
  /\ NoDup (omap returned_key
              (fst (run ((sample_env, submit_request) :: later_requests) alice_state))).
Proof.
  split.
  - apply (proj1 handed_out_keys_follow_the_draws sample_env url_body alice_state 1
             (JStr "http://example.com/a") (HttpResponse 200 "<p>Hello. World.</p>") alice);
      reflexivity.
  - apply (proj2 (proj2 (proj2 (proj2 handed_out_keys_follow_the_draws)))
             ((sample_env, submit_request) :: later_requests) alice_state).
    vm_compute. repeat constructor; intros H.
    + apply list_elem_of_In in H. simpl in H. destruct H as [H | []]. discriminate H.
    + apply list_elem_of_In in H. destruct H.
Defined.

Example handed_out_keys_example :
  omap returned_key (fst (run ((sample_env, submit_request) :: later_requests) alice_state)) =
    ["user_00000000000040008000000000000000"; "user_00000000000040008000000000000001"].
Proof. vm_compute. reflexivity. Qed.

(** ** The rate limit of the two hot endpoints *)

Lemma endpoint_inj (t t' : route) : endpoint t = endpoint t' -> t = t'.
Proof. destruct t, t'; simpl; intros H; first [reflexivity | discriminate H]. Qed.

Lemma record_hit_other (client bucket : string) (t : N) (l : limit)
    (h : gmap (string * string * N) (N * nat)) (key : string * string * N) :
  key <> (client, bucket, per l) -> record_hit client bucket t l h !! key = h !! key.
Proof.
  intros Hne. unfold record_hit.
  destruct (h !! (client, bucket, per l)) as [[expiry n] |];
    [destruct (t <? expiry)%N |]; now rewrite lookup_insert_ne.
Qed.

Lemma allow_other (client bucket : string) (t : N) (limits : list limit)
    (h : gmap (string * string * N) (N * nat)) (c b : string) (p : N) :
  (client, bucket) <> (c, b) ->
  snd (allow client bucket t limits h) !! (c, b, p) = h !! (c, b, p).
Proof.
  intros Hne. unfold allow. destruct (forallb _ _); [| reflexivity]. simpl.
  induction limits as [| l limits IH]; [reflexivity |]. simpl.
  rewrite record_hit_other; [exact IH | congruence].
Qed.

(** The counters after one request to a hot endpoint, and whether it was
    admitted: the first request opens the windows; a request inside the
    minute window is admitted while fewer than five were. *)
Lemma allow_hot (c b : string) (t : N) (h : gmap (string * string * N) (N * nat))
    (w : option (N * nat)) :
  counters_at h c b w ->
  match w with Some (t0, k) => (t < t0 + 60)%N /\ k <= 5 | None => True end ->
  let admitted_now := match w with Some (_, k) => bool_decide (k < 5) | None => true end in
  let w' := match w with
            | Some (t0, k) => Some (t0, if bool_decide (k < 5) then S k else k)
            | None => Some (t, 1)
            end in
  fst (allow c b t (five_per_minute :: default_limits) h) = admitted_now
  /\ counters_at (snd (allow c b t (five_per_minute :: default_limits) h)) c b w'.
Proof.
  intros Hc Hw. unfold allow, within, window_count, default_limits, five_per_minute.
  destruct w as [[t0 k] |]; simpl in Hc |- *.
  - destruct Hc as (H60 & H3600 & H86400). destruct Hw as [Ht Hk].
    rewrite H60, H3600, H86400.
    assert (H1 : (t <? t0 + 60)%N = true) by (apply N.ltb_lt; lia).
    assert (H2 : (t <? t0 + 3600)%N = true) by (apply N.ltb_lt; lia).
    assert (H3 : (t <? t0 + 86400)%N = true) by (apply N.ltb_lt; lia).
    rewrite H1, H2, H3.
    assert (H200 : Nat.ltb k 200 = true) by (apply Nat.ltb_lt; lia).
    assert (H50 : Nat.ltb k 50 = true) by (apply Nat.ltb_lt; lia).
    rewrite H200, H50, !andb_true_r.
    destruct (bool_decide (k < 5)) eqn:Hlt.
    + apply bool_decide_eq_true in Hlt.
      assert (H5 : Nat.ltb k 5 = true) by (apply Nat.ltb_lt; lia).
      rewrite H5. simpl. split; [reflexivity |].
      unfold record_hit; simpl.
      rewrite H3600, H2. rewrite lookup_insert_ne by congruence. rewrite H86400, H3.
      rewrite !lookup_insert_ne by congruence. rewrite H60, H1.
      rewrite lookup_insert_eq.
      rewrite lookup_insert_ne by congruence. rewrite lookup_insert_ne by congruence.
      rewrite lookup_insert_eq.
      rewrite lookup_insert_ne by congruence. rewrite lookup_insert_eq. auto.
    + apply bool_decide_eq_false in Hlt.
      assert (H5 : Nat.ltb k 5 = false) by (apply Nat.ltb_ge; lia).
      rewrite H5. simpl. auto.
  - rewrite !Hc. simpl. split; [reflexivity |].
    unfold record_hit; simpl.
    rewrite Hc. rewrite lookup_insert_ne by congruence. rewrite Hc.
    rewrite !lookup_insert_ne by congruence. rewrite Hc.
    rewrite lookup_insert_eq.
    rewrite lookup_insert_ne by congruence. rewrite lookup_insert_ne by congruence.
    rewrite lookup_insert_eq.
    rewrite lookup_insert_ne by congruence. rewrite lookup_insert_eq. auto.
Qed.

(** No view answers 429. *)
Lemma view_never_429 (e : env) (r : request) :
  answers (fun resp => status resp <> 429) (view e r).
Proof.
  unfold view.
  destruct (target r);
    unfold index, register, login, logout, chatbot_design, chat, chat_except,
      get_user_api_keys, process_url;
    repeat first
      [ apply answers_ret; simpl; discriminate
      | apply answers_raise
      | apply answers_bind; intros ?
      | apply answers_try_except; [| intros ?]
      | case_match ].
Qed.

Lemma run_view_hits (e : env) (r : request) (st : state) :
  hits (snd (run_view e r st)) = hits st.
Proof.
  unfold run_view. pose proof (view_preserves_hits e r st) as H.
  destruct (view e r st) as [[resp | ex] st']; exact H.
Qed.

Lemma run_view_status (e : env) (r : request) (st : state) :
  status (fst (run_view e r st)) <> 429.
Proof.
  unfold run_view. pose proof (view_never_429 e r st) as H.
  destruct (view e r st) as [[resp | ex] st']; [eapply H; reflexivity |].
  simpl. unfold error_page. destruct (exn_class_of ex); discriminate.
Qed.

Lemma serve_unfold (e : env) (r : request) (st : state) :
  serve e r st =
    let res := allow (remote_addr r) (endpoint (target r)) (now e) (limits_of (target r))
                 (hits st) in
    if fst res then run_view e r (admitted r (snd res) st) else (too_many_requests, st).
Proof.
  unfold serve, run_view, admitted. cbv zeta.
  destruct (allow _ _ _ _ _) as [ok h]. reflexivity.
Qed.

(** A request of another client, or to another endpoint, leaves the
    counters of [(c, b)] alone. *)
Lemma serve_counters_other (e : env) (r : request) (st : state) (c b : string) (p : N) :
  (remote_addr r, endpoint (target r)) <> (c, b) ->
  hits (snd (serve e r st)) !! (c, b, p) = hits st !! (c, b, p).
Proof.
  intros Hne. rewrite serve_unfold. cbv zeta.
  pose proof (allow_other (remote_addr r) (endpoint (target r)) (now e)
                (limits_of (target r)) (hits st) c b p Hne) as Hallow.
  destruct (fst (allow _ _ _ _ _)); [| reflexivity].
  rewrite run_view_hits. exact Hallow.
Qed.

(** A request of client [c] to the hot endpoint [t]. *)
Lemma serve_counters_hot (e : env) (r : request) (st : state) (t : route)
    (w : option (N * nat)) :
  hot t ->
  target r = t ->
  counters_at (hits st) (remote_addr r) (endpoint t) w ->
  match w with Some (t0, k) => (now e < t0 + 60)%N /\ k <= 5 | None => True end ->
  serve e r st =
    (if match w with Some (_, k) => bool_decide (k < 5) | None => true end
     then run_view e r
            (admitted r
               (snd (allow (remote_addr r) (endpoint t) (now e)
                       (five_per_minute :: default_limits) (hits st))) st)
     else (too_many_requests, st))
  /\ counters_at (hits (snd (serve e r st))) (remote_addr r) (endpoint t)
       match w with
       | Some (t0, k) => Some (t0, if bool_decide (k < 5) then S k else k)
       | None => Some (now e, 1)
       end.
Proof.
  intros Hhot Hroute Hc Hw.
  assert (Hlimits : limits_of (target r) = five_per_minute :: default_limits)
    by (rewrite Hroute; destruct Hhot as [-> | ->]; reflexivity).
  destruct (allow_hot (remote_addr r) (endpoint t) (now e) (hits st) w Hc Hw) as [Hok Hnext].
  cbv zeta in Hok, Hnext.
  rewrite serve_unfold. cbv zeta. rewrite Hlimits, Hroute, Hok.
  split; [reflexivity |].
  destruct w as [[t0 k] |].
  - destruct (bool_decide (k < 5)) eqn:Hlt.
    + rewrite run_view_hits. exact Hnext.
    + unfold allow in Hnext. unfold allow, within, window_count in Hok.
      simpl. simpl in Hok.
      destruct (forallb _ _) eqn:Hall in Hnext; [| exact Hnext].
      unfold within, window_count in Hall. simpl in Hall, Hok.
      rewrite Hall in Hok. discriminate Hok.
  - rewrite run_view_hits. exact Hnext.
Qed.

Lemma run_app (l1 l2 : list (env * request)) (st : state) :
  snd (run (l1 ++ l2) st) = snd (run l2 (snd (run l1 st))).
Proof.
  revert st. induction l1 as [| [e r] l1 IH]; intros st; [reflexivity |].
  rewrite <- app_comm_cons, !run_cons. apply IH.
Qed.

Lemma run_one (e : env) (r : request) (st : state) :
  snd (run [(e, r)] st) = snd (serve e r st).
Proof. rewrite run_cons. reflexivity. Qed.

Lemma same_minute_snoc_other (c : string) (t : route) (reqs : list (env * request))
    (er : env * request) :
  ~ from_client c t er -> same_minute c t (reqs ++ [er]) -> same_minute c t reqs.
Proof.
  intros Hno. unfold same_minute. rewrite filter_app, filter_cons, decide_False by exact Hno.
  rewrite filter_nil, app_nil_r. auto.
Qed.

Lemma same_minute_snoc (c : string) (t : route) (reqs : list (env * request))
    (er : env * request) :
  from_client c t er ->
  same_minute c t (reqs ++ [er]) ->
  same_minute c t reqs
  /\ match filter (from_client c t) reqs with
     | [] => True
     | first :: _ => (now (fst er) < now (fst first) + 60)%N
     end.
Proof.
  intros Hyes. unfold same_minute. rewrite filter_app, filter_cons, decide_True by exact Hyes.
  rewrite filter_nil.
  destruct (filter (from_client c t) reqs) as [| first rest]; simpl; [auto |].
  intros H. apply Forall_app in H as [Hrest Hlast].
  split; [exact Hrest |]. now inversion Hlast.
Qed.

(** The counters of client [c] on the hot endpoint [t] after a run in
    which all of its requests to [t] fall within a minute of the first. *)
Lemma run_counters (c : string) (t : route) (reqs : list (env * request)) (st : state) :
  hot t ->
  (forall p, hits st !! (c, endpoint t, p) = None) ->
  same_minute c t reqs ->
  counters_at (hits (snd (run reqs st))) c (endpoint t)
    match filter (from_client c t) reqs with
    | [] => None
    | first :: rest => Some (now (fst first), Nat.min (S (length rest)) 5)
    end.
Proof.
  intros Hhot Hfresh.
  induction reqs as [| [e r] reqs IH] using rev_ind; intros Hminute; [exact Hfresh |].
  rewrite run_app, run_one, filter_app, filter_cons, filter_nil.
  destruct (decide (from_client c t (e, r))) as [Hyes | Hno].
  - apply same_minute_snoc in Hminute as [Hbefore Hlast]; [| exact Hyes].
    specialize (IH Hbefore). destruct Hyes as [Hc Hroute]. simpl in Hc, Hroute. subst c.
    destruct (filter (from_client (remote_addr r) t) reqs) as [| first rest].
    + exact (proj2 (serve_counters_hot e r _ t None Hhot Hroute IH I)).
    + simpl in Hlast.
      assert (Hw : (now e < now (fst first) + 60)%N /\ Nat.min (S (length rest)) 5 <= 5)
        by (split; [exact Hlast | lia]).
      pose proof (proj2 (serve_counters_hot e r _ t (Some (_, _)) Hhot Hroute IH Hw)) as Hnext.
      change ((first :: rest) ++ [(e, r)]) with (first :: (rest ++ [(e, r)])).
      cbv beta iota. rewrite length_app. simpl length. cbv beta iota in Hnext.
      replace (Nat.min (S (length rest + 1)) 5)
        with (if bool_decide (Nat.min (S (length rest)) 5 < 5)
              then S (Nat.min (S (length rest)) 5) else Nat.min (S (length rest)) 5);
        [exact Hnext |].
      case_bool_decide; lia.
  - apply same_minute_snoc_other in Hminute; [| exact Hno].
    specialize (IH Hminute). rewrite app_nil_r.
    assert (Hne : (remote_addr r, endpoint (target r)) <> (c, endpoint t)).
    { intros Heq. injection Heq as Hc Hb. apply Hno. split; [exact Hc |].
      now apply endpoint_inj. }
    destruct (filter (from_client c t) reqs) as [| first rest]; simpl in IH |- *.
    + intros p. rewrite serve_counters_other by exact Hne. apply IH.
    + rewrite !serve_counters_other by exact Hne. exact IH.
Qed.

(** C7: a client with no open window sends requests to one of the two
    endpoints limited to 5 per minute, all less than 60 seconds after its
    first, interleaved with any other traffic.  A request preceded by
    fewer than five of them is not answered 429: its view runs.  A request
    preceded by five or more is answered 429 and nothing else happens: the
    state is unchanged, so no URL is fetched and no completion is
    requested. *)
Theorem sixth_request_within_a_minute_rejected (c : string) (t : route) (st : state)
    (before : list (env * request)) (e : env) (r : request) :
  hot t ->
  (forall p, hits st !! (c, endpoint t, p) = None) ->
  from_client c t (e, r) ->
  same_minute c t (before ++ [(e, r)]) ->
  let earlier := length (filter (from_client c t) before) in
  let st' := snd (run before st) in
  (earlier < 5 ->
     status (fst (serve e r st')) <> 429
     /\ exists h, serve e r st' = run_view e r (admitted r h st'))
  /\ (5 <= earlier ->
        serve e r st' = (too_many_requests, st')
        /\ status (fst (serve e r st')) = 429
        /\ fetch_calls (trace (snd (serve e r st'))) = fetch_calls (trace st')
        /\ completion_calls (trace (snd (serve e r st'))) = completion_calls (trace st')).
Proof.
  intros Hhot Hfresh Hfrom Hminute earlier st'.
  apply same_minute_snoc in Hminute as [Hbefore Hlast]; [| exact Hfrom].
  pose proof (run_counters c t before st Hhot Hfresh Hbefore) as Hc. fold st' in Hc.
  destruct Hfrom as [Hclient Hroute]. simpl in Hclient, Hroute. subst c.
  subst earlier.
  destruct (filter (from_client (remote_addr r) t) before) as [| first rest].
  - destruct (serve_counters_hot e r st' t None Hhot Hroute Hc I) as [Hserve _].
    simpl in Hserve |- *. split; [| lia].
    intros _. rewrite Hserve. split; [apply run_view_status | eauto].
  - simpl in Hlast.
    assert (Hw : (now e < now (fst first) + 60)%N /\ Nat.min (S (length rest)) 5 <= 5)
      by (split; [exact Hlast | lia]).
    destruct (serve_counters_hot e r st' t (Some (_, _)) Hhot Hroute Hc Hw) as [Hserve _].
    simpl length. split; intros Hn.
    + rewrite bool_decide_eq_true_2 in Hserve by lia.
      rewrite Hserve. split; [apply run_view_status | eauto].
    + rewrite bool_decide_eq_false_2 in Hserve by lia.
      rewrite Hserve. auto.
Qed.

Example six_chats_statuses :
  map status (fst (run (five_chats ++ [(at_time 50, chat_request_of "user_nope")]) alice_state)) =
    [200; 200; 200; 200; 200; 200; 429].
Proof. vm_compute. reflexivity. Qed.

Lemma sixth_request_within_a_minute_rejected_witness :
  serve (at_time 50) (chat_request_of "user_nope") (snd (run five_chats alice_state)) =
    (too_many_requests, snd (run five_chats alice_state))
  /\ status (fst (serve (at_time 50) (chat_request_of "user_nope")
                    (snd (run five_chats alice_state)))) = 429
  /\ fetch_calls (trace (snd (serve (at_time 50) (chat_request_of "user_nope")
                                (snd (run five_chats alice_state))))) =
     fetch_calls (trace (snd (run five_chats alice_state)))
  /\ completion_calls (trace (snd (serve (at_time 50) (chat_request_of "user_nope")
                                     (snd (run five_chats alice_state))))) =
     completion_calls (trace (snd (run five_chats alice_state))).
Proof.
  apply (proj2 (sixth_request_within_a_minute_rejected "10.0.0.2" RChat alice_state five_chats
                  (at_time 50) (chat_request_of "user_nope")
                  (or_intror eq_refl)
                  (fun p => lookup_empty _)
                  (conj eq_refl eq_refl)
                  ltac:(unfold same_minute; simpl; repeat constructor))).
  simpl. lia.
Defined.

(** * Further properties of the handlers *)

(** ** [process_url]: guards and failure paths *)

(** X1: a request to [process_url] without a session cookie never fetches
    a URL and never writes: it is answered 401 before the body is read, or
    429 by the limiter, and [extracted_texts], the user table and the trace
    are what they were. *)
Theorem anonymous_submit_does_nothing (e : env) (r : request) (st : state) :
  target r = RProcessUrl ->
  cookie r = None ->
  (fst (serve e r st) = Response 401 (JsonBody (JObj [("error", JStr "User not logged in")]))
   \/ fst (serve e r st) = too_many_requests)
  /\ extracted_texts (snd (serve e r st)) = extracted_texts st
  /\ users (snd (serve e r st)) = users st
  /\ trace (snd (serve e r st)) = trace st.
Proof.
  intros Hroute Hcookie. rewrite serve_unfold. cbv zeta.
  destruct (fst (allow _ _ _ _ _)); [| auto].
  unfold run_view, view. rewrite Hroute.
  unfold process_url, admitted. run_py. rewrite Hcookie. simpl. auto.
Qed.

Lemma anonymous_submit_does_nothing_witness :
  (fst (serve sample_env anonymous_submit alice_state) =
     Response 401 (JsonBody (JObj [("error", JStr "User not logged in")]))
   \/ fst (serve sample_env anonymous_submit alice_state) = too_many_requests)
  /\ extracted_texts (snd (serve sample_env anonymous_submit alice_state)) =
     extracted_texts alice_state
  /\ users (snd (serve sample_env anonymous_submit alice_state)) = users alice_state
  /\ trace (snd (serve sample_env anonymous_submit alice_state)) = trace alice_state.
Proof.
  apply (anonymous_submit_does_nothing sample_env anonymous_submit alice_state);
    reflexivity.
Defined.

(** X2: for a logged-in user whose body is a JSON object without a [url],
    or with an empty or otherwise falsy one, [process_url] answers 400
    "No URL provided" and does nothing else: no fetch, no key, no write. *)
Theorem process_url_without_url (e : env) (fields : list (string * json)) (st : state)
    (user_id : nat) :
  session st = Some user_id ->
  truthy (default JNull (assoc "url" fields)) = false ->
  process_url e (Returned (JObj fields)) st =
    (Returned (Response 400 (JsonBody (JObj [("error", JStr "No URL provided")]))), st).
Proof.
  intros Hs Hurl. unfold process_url. run_py. rewrite Hs. simpl. now rewrite Hurl.
Qed.

Lemma process_url_without_url_witness :
  process_url sample_env (Returned (JObj [("url", JStr EmptyString)])) alice_state =
    (Returned (Response 400 (JsonBody (JObj [("error", JStr "No URL provided")]))), alice_state).
Proof.
  apply (process_url_without_url sample_env [("url", JStr EmptyString)] alice_state 1);
    reflexivity.
Defined.

Lemma json_get_raises_attribute_error (body : json) (key : string) (ex : exn) :
  json_get body key = Raised ex -> exn_class_of ex = AttributeError.
Proof. destruct body; simpl; intros H; inversion H; reflexivity. Qed.

(** X3: the body of [process_url] is read outside its [try] block.  For a
    logged-in user whose JSON body is not an object (a list, a string, a
    number, [null]), [request.json.get('url')] raises [AttributeError];
    the exception leaves the handler uncaught, with the state unchanged,
    and the server answers with its own 500 page instead of the JSON error
    body of the handler. *)
Theorem process_url_bad_body_escapes (e : env) (r : request) (st : state) (user_id : nat)
    (body : json) (ex : exn) :
  target r = RProcessUrl ->
  cookie r = Some user_id ->
  json_body r = Returned body ->
  json_get body "url" = Raised ex ->
  (forall s, session s = Some user_id -> process_url e (json_body r) s = (Raised ex, s))
  /\ (fst (serve e r st) = internal_server_error \/ fst (serve e r st) = too_many_requests)
  /\ extracted_texts (snd (serve e r st)) = extracted_texts st
  /\ users (snd (serve e r st)) = users st
  /\ trace (snd (serve e r st)) = trace st.
Proof.
  intros Hroute Hcookie Hjson Hbody.
  assert (Hraise : forall s, session s = Some user_id ->
                     process_url e (json_body r) s = (Raised ex, s)).
  { intros s Hs. unfold process_url. run_py. rewrite Hs, Hjson. simpl. now rewrite Hbody. }
  split; [exact Hraise |].
  rewrite serve_unfold. cbv zeta.
  destruct (fst (allow _ _ _ _ _)); [| auto].
  unfold run_view, view. rewrite Hroute, Hraise by exact Hcookie. simpl.
  unfold error_page. rewrite (json_get_raises_attribute_error body "url" ex Hbody). auto.
Qed.

Lemma process_url_bad_body_escapes_witness :
  (forall s, session s = Some 1 -> process_url sample_env list_body s =
     (Raised (Exn AttributeError "'list' object has no attribute 'get'"), s))
  /\ (fst (serve sample_env (Request "10.0.0.1" (Some 1) RProcessUrl list_body []) alice_state) =
        internal_server_error
      \/ fst (serve sample_env (Request "10.0.0.1" (Some 1) RProcessUrl list_body []) alice_state) =
        too_many_requests)
  /\ extracted_texts
       (snd (serve sample_env (Request "10.0.0.1" (Some 1) RProcessUrl list_body []) alice_state)) =
     extracted_texts alice_state
  /\ users (snd (serve sample_env (Request "10.0.0.1" (Some 1) RProcessUrl list_body [])
                  alice_state)) = users alice_state
  /\ trace (snd (serve sample_env (Request "10.0.0.1" (Some 1) RProcessUrl list_body [])
                  alice_state)) = trace alice_state.
Proof.
  apply (process_url_bad_body_escapes sample_env
           (Request "10.0.0.1" (Some 1) RProcessUrl list_body []) alice_state 1
           (JArr [JStr "http://example.com/a"])
           (Exn AttributeError "'list' object has no attribute 'get'"));
    reflexivity.
Defined.

(** X4: when everything succeeds, [process_url] answers 200 with the new
    key and the integration script for that same key, binds the key to the
    extracted text, appends the key at the end of the caller's key list,
    leaves every other user's row alone, and has fetched the URL exactly
    once. *)
Theorem process_url_success (e : env) (data : outcome json) (st : state) (user_id : nat)
    (url : json) (page : http_response) (row : User) :
  session st = Some user_id ->
  request_json_get data "url" = Returned url ->
  truthy url = true ->
  requests_get e url = Returned page ->
  users st !! user_id = Some row ->
  db_commit e = None ->
  let key := new_api_key e in
  let st' := snd (process_url e data st) in
  fst (process_url e data st) =
    Returned (Response 200
      (JsonBody (JObj [("message", JStr "Processing complete");
                       ("api_key", JStr key);
                       ("integration_code", JStr (generate_integration_script key))])))
  /\ extracted_texts st' =
       <[key := String.concat " " (html_paragraphs e (text page))]> (extracted_texts st)
  /\ users st' !! user_id = Some (mkUser (email row) (password row) (api_keys row ++ [key]))
  /\ (forall other, other <> user_id -> users st' !! other = users st !! other)
  /\ fetch_calls (trace st') = fetch_calls (trace st) ++ [url].
Proof.
  intros Hs Hurl Htrue Hpage Hrow Hcommit key st'. subst key st'.
  rewrite (process_url_run e data st user_id url Hs Hurl Htrue). cbv zeta.
  rewrite Hpage, Hrow, Hcommit. simpl.
  split; [reflexivity |]. split; [reflexivity |].
  split; [apply lookup_insert_eq |].
  split; [intros other Hne; now apply lookup_insert_ne |].
  unfold fetch_calls. rewrite !omap_app. simpl. now rewrite app_nil_r.
Qed.

Lemma process_url_success_witness :
  fst (process_url sample_env url_body alice_state) =
    Returned (Response 200
      (JsonBody (JObj [("message", JStr "Processing complete");
                       ("api_key", JStr (new_api_key sample_env));
                       ("integration_code",
                        JStr (generate_integration_script (new_api_key sample_env)))])))
  /\ extracted_texts (snd (process_url sample_env url_body alice_state)) =
       <[new_api_key sample_env := "Hello. World."]> (extracted_texts alice_state)
  /\ users (snd (process_url sample_env url_body alice_state)) !! 1 =
       Some (mkUser (email alice) (password alice) (api_keys alice ++ [new_api_key sample_env]))
  /\ (forall other, other <> 1 ->
        users (snd (process_url sample_env url_body alice_state)) !! other =
        users alice_state !! other)
  /\ fetch_calls (trace (snd (process_url sample_env url_body alice_state))) =
       fetch_calls (trace alice_state) ++ [JStr "http://example.com/a"].
Proof.
  apply (process_url_success sample_env url_body alice_state 1
           (JStr "http://example.com/a") (HttpResponse 200 "<p>Hello. World.</p>") alice);
    reflexivity.
Defined.

(** X5: the write to [extracted_texts] is not undone when a later step of
    [process_url] fails.  If the fetch succeeded but the user's row is gone
    or the commit raises, the answer is the 500 error body with the text of
    that exception (it does not name the key), the user table is unchanged,
    and the extracted text stays stored under the generated key. *)
Theorem process_url_failure_after_store (e : env) (data : outcome json) (st : state)
    (user_id : nat) (url : json) (page : http_response) (ex : exn) :
  session st = Some user_id ->
  request_json_get data "url" = Returned url ->
  truthy url = true ->
  requests_get e url = Returned page ->
  (users st !! user_id = None
   /\ ex = Exn AttributeError "'NoneType' object has no attribute 'api_keys'")
  \/ (is_Some (users st !! user_id) /\ db_commit e = Some ex) ->
  let st' := snd (process_url e data st) in
  fst (process_url e data st) =
    Returned (Response 500 (JsonBody (JObj [("error", JStr (exn_str ex))])))
  /\ users st' = users st
  /\ extracted_texts st' !! new_api_key e =
       Some (String.concat " " (html_paragraphs e (text page))).
Proof.
  intros Hs Hurl Htrue Hpage Hfail st'. subst st'.
  rewrite (process_url_run e data st user_id url Hs Hurl Htrue). cbv zeta.
  rewrite Hpage.
  destruct Hfail as [[Hrow ->] | [[row Hrow] Hcommit]]; rewrite Hrow; [| rewrite Hcommit];
    simpl; (split; [reflexivity |]); (split; [reflexivity |]); apply lookup_insert_eq.
Qed.

Lemma process_url_failure_after_store_witness :
  fst (process_url readonly_db_env url_body alice_state) =
    Returned (Response 500 (JsonBody (JObj [("error", JStr "database is locked")])))
  /\ users (snd (process_url readonly_db_env url_body alice_state)) = users alice_state
  /\ extracted_texts (snd (process_url readonly_db_env url_body alice_state))
       !! new_api_key readonly_db_env = Some "Hello. World.".
Proof.
  apply (process_url_failure_after_store readonly_db_env url_body alice_state 1
           (JStr "http://example.com/a") (HttpResponse 200 "<p>Hello. World.</p>")
           (Exn SQLAlchemyError "database is locked"));
    [reflexivity | reflexivity | reflexivity | reflexivity |].
  right. split; [eexists; reflexivity | reflexivity].
Defined.

(** ** [process_url] composed with the readers of its writes *)

(** X6: after a successful [process_url], [get_user_api_keys] in the same
    session lists the keys the user had, in order, followed by the new
    key, and changes nothing. *)
Theorem api_keys_listed_after_submit (e : env) (data : outcome json) (st : state)
    (user_id : nat) (url : json) (page : http_response) (row : User) :
  session st = Some user_id ->
  request_json_get data "url" = Returned url ->
  truthy url = true ->
  requests_get e url = Returned page ->
  users st !! user_id = Some row ->
  db_commit e = None ->
  let st' := snd (process_url e data st) in
  get_user_api_keys st' =
    (Returned (Response 200
       (JsonBody (JObj [("api_keys", JArr (map JStr (api_keys row ++ [new_api_key e])))]))),
     st').
Proof.
  intros Hs Hurl Htrue Hpage Hrow Hcommit st'. subst st'.
  rewrite (process_url_run e data st user_id url Hs Hurl Htrue). cbv zeta.
  rewrite Hpage, Hrow, Hcommit. simpl.
  unfold get_user_api_keys. run_py. rewrite Hs. simpl.
  now rewrite lookup_insert_eq.
Qed.

Lemma api_keys_listed_after_submit_witness :
  get_user_api_keys (snd (process_url sample_env url_body alice_state)) =
    (Returned (Response 200
       (JsonBody (JObj [("api_keys", JArr (map JStr (api_keys alice ++ [new_api_key sample_env])))]))),
     snd (process_url sample_env url_body alice_state)).
Proof.
  apply (api_keys_listed_after_submit sample_env url_body alice_state 1
           (JStr "http://example.com/a") (HttpResponse 200 "<p>Hello. World.</p>") alice);
    reflexivity.
Defined.

Lemma new_api_key_nonempty (e : env) : new_api_key e <> EmptyString.
Proof. unfold new_api_key. simpl. discriminate. Qed.

(** The store after a [process_url] whose fetch returned a page. *)
Lemma process_url_binds_key (e : env) (data : outcome json) (st : state) (user_id : nat)
    (url : json) (page : http_response) :
  session st = Some user_id ->
  request_json_get data "url" = Returned url ->
  truthy url = true ->
  requests_get e url = Returned page ->
  extracted_texts (snd (process_url e data st)) =
    <[new_api_key e := String.concat " " (html_paragraphs e (text page))]> (extracted_texts st)
  /\ completion_calls (trace (snd (process_url e data st))) = completion_calls (trace st).
Proof.
  intros Hs Hurl Htrue Hpage.
  rewrite (process_url_run e data st user_id url Hs Hurl Htrue). cbv zeta. rewrite Hpage.
  assert (Hfetch : forall s, completion_calls (trace (add_event (Fetched url) s)) =
                             completion_calls (trace s)).
  { intros s. unfold completion_calls. simpl. rewrite omap_app. simpl. apply app_nil_r. }
  destruct (users st !! user_id) as [row |]; [destruct (db_commit e) as [ex |] |]; simpl;
    (split; [reflexivity |]);
    rewrite completion_calls_logged; apply (Hfetch st).
Qed.

(** X7: a submitted page reaches the prompt.  After a [process_url] whose
    fetch returned a page, a [chat] with the generated key and a non-empty
    input sends one completion request whose system message is the fixed
    introduction followed by the paragraphs of that page, and whose user
    message is the input. *)
Theorem submitted_text_reaches_prompt (e e' : env) (data data' : outcome json) (st : state)
    (user_id : nat) (url : json) (page : http_response) (user_input : json) :
  session st = Some user_id ->
  request_json_get data "url" = Returned url ->
  truthy url = true ->
  requests_get e url = Returned page ->
  request_json_get data' "input" = Returned user_input ->
  request_json_get data' "api_key" = Returned (JStr (new_api_key e)) ->
  truthy user_input = true ->
  let st' := snd (process_url e data st) in
  exists req,
    messages req =
      [Message "system"
         (JStr ("You are a chatbot trained on the following website content: "
                +:+ String.concat " " (html_paragraphs e (text page))));
       Message "user" user_input]
    /\ completion_calls (trace (snd (chat e' data' st'))) = completion_calls (trace st) ++ [req].
Proof.
  intros Hs Hurl Htrue Hpage Hin Hkey Hinput st'.
  destruct (process_url_binds_key e data st user_id url page Hs Hurl Htrue Hpage)
    as [Hstore Hcalls].
  fold st' in Hstore, Hcalls.
  rewrite (chat_valid_run e' data' st' user_input (new_api_key e) Hin Hkey Hinput
             (new_api_key_nonempty e)).
  rewrite Hstore, lookup_insert_eq. simpl default.
  eexists (chat_request _). split; [reflexivity |]. cbv zeta.
  destruct (completions_create e' _) as [choices | ex].
  - destruct choices.
    + rewrite chat_except_trace. simpl.
      now rewrite completion_calls_logged, completion_calls_completion,
        completion_calls_logged, Hcalls.
    + simpl.
      now rewrite completion_calls_logged, completion_calls_completion,
        completion_calls_logged, Hcalls.
  - rewrite chat_except_trace. simpl.
    now rewrite completion_calls_completion, completion_calls_logged, Hcalls.
Qed.

Lemma submitted_text_reaches_prompt_witness :
  exists req,
    messages req =
      [Message "system"
         (JStr ("You are a chatbot trained on the following website content: "
                +:+ String.concat " "
                      (html_paragraphs sample_env (text (HttpResponse 200 "<p>Hello. World.</p>")))));
       Message "user" (JStr "hello")]
    /\ completion_calls
         (trace (snd (chat sample_env (hello_body (new_api_key sample_env))
                        (snd (process_url sample_env url_body alice_state))))) =
       completion_calls (trace alice_state) ++ [req].
Proof.
  apply (submitted_text_reaches_prompt sample_env sample_env url_body
           (hello_body (new_api_key sample_env)) alice_state 1
           (JStr "http://example.com/a") (HttpResponse 200 "<p>Hello. World.</p>")
           (JStr "hello"));
    reflexivity.
Defined.

(** ** [chat]: the remaining paths *)

(** X8: [chat] reads the body inside its [try] block, but its [except]
    clauses do not catch what that raises.  When reading the [input] field
    raises anything but a transport exception of [requests] (the body is
    not JSON, or is not an object), the second [except] clause raises
    [AttributeError]: the handler raises, nothing is logged, no completion
    request is sent, and the server answers its 500 page (also where
    [request.json] had raised a 400 or a 415). *)
Theorem chat_bad_body_escapes (e : env) (r : request) (st : state) (ex : exn) :
  target r = RChat ->
  request_json_get (json_body r) "input" = Raised ex ->
  exn_class_of ex <> RequestException ->
  (forall s, chat e (json_body r) s =
     (Raised (Exn AttributeError "type object 'Together' has no attribute 'APIError'"), s))
  /\ (fst (serve e r st) = internal_server_error \/ fst (serve e r st) = too_many_requests)
  /\ trace (snd (serve e r st)) = trace st
  /\ extracted_texts (snd (serve e r st)) = extracted_texts st.
Proof.
  intros Hroute Hbody Hclass.
  assert (Hchat : forall s, chat e (json_body r) s =
            (Raised (Exn AttributeError "type object 'Together' has no attribute 'APIError'"), s)).
  { intros s.
    assert (H : chat e (json_body r) s = chat_except ex s)
      by (unfold chat; run_py; now rewrite Hbody).
    rewrite H, chat_except_run. now rewrite decide_False by exact Hclass. }
  split; [exact Hchat |].
  rewrite serve_unfold. cbv zeta.
  destruct (fst (allow _ _ _ _ _)); [| auto].
  unfold run_view, view. rewrite Hroute, Hchat. simpl. auto.
Qed.

Lemma chat_bad_body_escapes_witness :
  (forall s, chat sample_env list_body s =
     (Raised (Exn AttributeError "type object 'Together' has no attribute 'APIError'"), s))
  /\ (fst (serve sample_env (Request "10.0.0.2" None RChat list_body []) sample_state) =
        internal_server_error
      \/ fst (serve sample_env (Request "10.0.0.2" None RChat list_body []) sample_state) =
        too_many_requests)
  /\ trace (snd (serve sample_env (Request "10.0.0.2" None RChat list_body []) sample_state)) =
     trace sample_state
  /\ extracted_texts
       (snd (serve sample_env (Request "10.0.0.2" None RChat list_body []) sample_state)) =
     extracted_texts sample_state.
Proof.
  apply (chat_bad_body_escapes sample_env (Request "10.0.0.2" None RChat list_body [])
           sample_state (Exn AttributeError "'list' object has no attribute 'get'"));
    [reflexivity | reflexivity | discriminate].
Defined.

(** X9: an [api_key] that is a non-empty JSON list passes the emptiness
    test but cannot be used as a dictionary key: the lookup raises
    [TypeError], which no [except] clause of [chat] handles (the second one
    raises [AttributeError] itself), so the handler raises with the state
    unchanged: no completion request is sent and nothing is logged. *)
Theorem chat_list_key_escapes (e : env) (fields : list (string * json)) (st : state)
    (user_input item : json) (items : list json) :
  assoc "input" fields = Some user_input ->
  truthy user_input = true ->
  assoc "api_key" fields = Some (JArr (item :: items)) ->
  dict_get (extracted_texts st) (JArr (item :: items)) no_context =
    Raised (Exn TypeError "unhashable type: 'list'")
  /\ chat e (Returned (JObj fields)) st =
       (Raised (Exn AttributeError "type object 'Together' has no attribute 'APIError'"), st)
  /\ completion_calls (trace (snd (chat e (Returned (JObj fields)) st))) =
     completion_calls (trace st).
Proof.
  intros Hin Htrue Hkey.
  assert (Hchat : chat e (Returned (JObj fields)) st =
            (Raised (Exn AttributeError "type object 'Together' has no attribute 'APIError'"), st)).
  { unfold chat. run_py. rewrite Hin, Hkey. simpl. rewrite Htrue. reflexivity. }
  rewrite Hchat. auto.
Qed.

Lemma chat_list_key_escapes_witness :
  dict_get (extracted_texts sample_state) (JArr [JStr "user_0"]) no_context =
    Raised (Exn TypeError "unhashable type: 'list'")
  /\ chat sample_env list_key_body sample_state =
       (Raised (Exn AttributeError "type object 'Together' has no attribute 'APIError'"),
        sample_state)
  /\ completion_calls (trace (snd (chat sample_env list_key_body sample_state))) =
     completion_calls (trace sample_state).
Proof.
  apply (chat_list_key_escapes sample_env
           [("input", JStr "hello"); ("api_key", JArr [JStr "user_0"])] sample_state
           (JStr "hello") (JStr "user_0") []);
    reflexivity.
Defined.

(** X10: [chat] answers with the first choice only.  When the completion
    service returns at least one choice, the answer is 200 with that
    choice's text unchanged, whatever the other choices are.  When it
    returns none, indexing the empty list raises [IndexError], the second
    [except] clause raises [AttributeError], and the handler raises. *)
Theorem chat_answers_first_choice (e : env) (data : outcome json) (st : state)
    (user_input : json) (api_key : string) (choices : list string) :
  request_json_get data "input" = Returned user_input ->
  request_json_get data "api_key" = Returned (JStr api_key) ->
  truthy user_input = true ->
  api_key <> EmptyString ->
  completions_create e
    (chat_request
       (chat_messages (default no_context (extracted_texts st !! api_key)) user_input)) =
    Returned choices ->
  fst (chat e data st) =
    match choices with
    | first :: _ => Returned (Response 200 (JsonBody (JObj [("response", JStr first)])))
    | [] => Raised (Exn AttributeError "type object 'Together' has no attribute 'APIError'")
    end.
Proof.
  intros Hin Hkey Htrue Hne Hchoices.
  rewrite (chat_valid_run e data st user_input api_key Hin Hkey Htrue Hne).
  cbv zeta. rewrite Hchoices. destruct choices; reflexivity.
Qed.

Lemma chat_answers_first_choice_witness :
  fst (chat sample_env (hello_body "user_nope") sample_state) =
    Returned (Response 200 (JsonBody (JObj [("response", JStr "Hi there")]))).
Proof.
  apply (chat_answers_first_choice sample_env (hello_body "user_nope") sample_state
           (JStr "hello") "user_nope" ["Hi there"]);
    [reflexivity | reflexivity | reflexivity | discriminate | reflexivity].
Defined.

(** X23: a transport failure of the completion call is answered in JSON.
    For a valid request, when the completion call raises a
    [requests.exceptions.RequestException], [chat] logs it and answers 503
    with the body [{"error": "Network error: ..."}] carrying the text of
    the exception. *)
Theorem chat_network_error_is_503 (e : env) (data : outcome json) (st : state)
    (user_input : json) (api_key : string) (ex : exn) :
  request_json_get data "input" = Returned user_input ->
  request_json_get data "api_key" = Returned (JStr api_key) ->
  truthy user_input = true ->
  api_key <> EmptyString ->
  completions_create e
    (chat_request
       (chat_messages (default no_context (extracted_texts st !! api_key)) user_input)) =
    Raised ex ->
  exn_class_of ex = RequestException ->
  fst (chat e data st) =
    Returned (Response 503
      (JsonBody (JObj [("error", JStr ("Network error: " +:+ exn_str ex))]))).
Proof.
  intros Hin Hkey Htrue Hne Hraise Hclass.
  rewrite (chat_valid_run e data st user_input api_key Hin Hkey Htrue Hne).
  cbv zeta. rewrite Hraise, chat_except_run. now rewrite decide_True by exact Hclass.
Qed.

Lemma chat_network_error_is_503_witness :
  fst (chat offline_env (hello_body "user_nope") sample_state) =
    Returned (Response 503
      (JsonBody (JObj [("error", JStr "Network error: Connection refused")]))).
Proof.
  apply (chat_network_error_is_503 offline_env (hello_body "user_nope") sample_state
           (JStr "hello") "user_nope" (Exn RequestException "Connection refused"));
    [reflexivity | reflexivity | reflexivity | discriminate | reflexivity | reflexivity].
Defined.

(** ** What the views never do *)

Lemma preserves_emit_event {A} (proj : state -> A) (ev : event) :
  (forall st, proj (add_event ev st) = proj st) -> preserves proj (emit ev).
Proof. intros H st. apply H. Qed.

(** X11: the views of [index], [chatbot_design], [chat] and
    [get_user_api_keys], and a request that matches no rule, never write to
    [extracted_texts], to the user table or to the session, whatever the
    request and whatever the outside world answers, even when they
    fail. *)
Theorem read_only_views_write_nothing (e : env) (r : request) (st : state) :
  read_only (target r) ->
  extracted_texts (snd (view e r st)) = extracted_texts st
  /\ users (snd (view e r st)) = users st
  /\ session (snd (view e r st)) = session st.
Proof.
  intros Hro.
  assert (Ht : preserves extracted_texts (view e r)
               /\ preserves users (view e r) /\ preserves session (view e r)).
  { unfold view.
    destruct Hro as [-> | [-> | [-> | [-> | ->]]]];
      unfold index, chatbot_design, chat, create, get_user_api_keys;
      (split; [| split]); frame; now apply chat_except_preserves. }
  destruct Ht as (H1 & H2 & H3). auto.
Qed.

Lemma read_only_views_write_nothing_witness :
  extracted_texts (snd (view sample_env (chat_request_of "user_nope") alice_state)) =
    extracted_texts alice_state
  /\ users (snd (view sample_env (chat_request_of "user_nope") alice_state)) = users alice_state
  /\ session (snd (view sample_env (chat_request_of "user_nope") alice_state)) =
     session alice_state.
Proof.
  apply (read_only_views_write_nothing sample_env (chat_request_of "user_nope") alice_state).
  right. right. left. reflexivity.
Defined.

Lemma completion_calls_fetched tr url :
  completion_calls (tr ++ [Fetched url]) = completion_calls tr.
Proof. unfold completion_calls. rewrite omap_app. simpl. apply app_nil_r. Qed.

Lemma fetch_calls_logged tr lvl prefix arg :
  fetch_calls (tr ++ [Logged lvl prefix arg]) = fetch_calls tr.
Proof. unfold fetch_calls. rewrite omap_app. simpl. apply app_nil_r. Qed.

Lemma fetch_calls_completion tr req : fetch_calls (tr ++ [Completion req]) = fetch_calls tr.
Proof. unfold fetch_calls. rewrite omap_app. simpl. apply app_nil_r. Qed.

Lemma fetch_calls_fetched tr url : fetch_calls (tr ++ [Fetched url]) = fetch_calls tr ++ [url].
Proof. unfold fetch_calls. rewrite omap_app. reflexivity. Qed.

(** Splits a handler into its steps, for a component of the trace. *)
Ltac frame_calls :=
  repeat first
    [ apply preserves_ret
    | apply preserves_raise
    | apply preserves_get_state
    | apply preserves_lift_outcome
    | apply preserves_emit_event; intros ?; simpl;
      first [ apply completion_calls_logged | apply completion_calls_fetched
            | apply fetch_calls_logged | apply fetch_calls_completion ]
    | apply preserves_bind; [| intros ?]
    | apply preserves_try_except; [| intros ?]
    | apply preserves_modify; reflexivity
    | case_match ].

(** X12: the two outside services are each called from one view only.
    No view but [chat] sends a completion request, and [chat] fetches no
    URL; no view but [process_url] fetches a URL, and [process_url] sends
    no completion request. *)
Theorem outside_calls_by_route (e : env) (r : request) (st : state) :
  (target r <> RChat ->
     completion_calls (trace (snd (view e r st))) = completion_calls (trace st))
  /\ (target r <> RProcessUrl ->
        fetch_calls (trace (snd (view e r st))) = fetch_calls (trace st)).
Proof.
  split; intros Hroute.
  - assert (H : preserves (fun s => completion_calls (trace s)) (view e r)); [| apply H].
    unfold view.
    destruct (target r); try congruence;
      unfold index, register, add_user, login, logout, chatbot_design, get_user_api_keys,
        process_url, extract_text_from_url, commit;
      frame_calls.
  - assert (H : preserves (fun s => fetch_calls (trace s)) (view e r)); [| apply H].
    unfold view.
    destruct (target r); try congruence;
      unfold index, register, add_user, login, logout, chatbot_design, get_user_api_keys,
        chat, create, chat_except, commit;
      frame_calls.
Qed.

Lemma outside_calls_by_route_witness :
  completion_calls (trace (snd (view sample_env submit_request alice_state))) =
    completion_calls (trace alice_state)
  /\ fetch_calls (trace (snd (view sample_env (chat_request_of "user_nope") alice_state))) =
     fetch_calls (trace alice_state).
Proof.
  split.
  - apply (proj1 (outside_calls_by_route sample_env submit_request alice_state)).
    discriminate.
  - apply (proj2 (outside_calls_by_route sample_env (chat_request_of "user_nope") alice_state)).
    discriminate.
Defined.

(** X13: one request costs at most one outside call of each kind: [chat]
    sends at most one completion request and [process_url] fetches at most
    one URL, on every path, including the failing ones (nothing is
    retried). *)
Theorem at_most_one_outside_call (e : env) (data : outcome json) (st : state) :
  (exists reqs,
     completion_calls (trace (snd (chat e data st))) = completion_calls (trace st) ++ reqs
     /\ length reqs <= 1)
  /\ (exists urls,
        fetch_calls (trace (snd (process_url e data st))) = fetch_calls (trace st) ++ urls
        /\ length urls <= 1).
Proof.
  assert (Hnone : forall tr : list completion_request, exists reqs,
                    tr = tr ++ reqs /\ length reqs <= 1)
    by (intros tr; exists []; rewrite app_nil_r; split; [reflexivity | simpl; lia]).
  assert (Hnone' : forall tr : list json, exists urls,
                     tr = tr ++ urls /\ length urls <= 1)
    by (intros tr; exists []; rewrite app_nil_r; split; [reflexivity | simpl; lia]).
  split.
  - unfold chat, create, try_except, bind, lift_outcome, ret, raise, emit, modify, get_state.
    destruct (request_json_get data "input") as [user_input | ex]; simpl;
      [| rewrite chat_except_trace; apply Hnone].
    destruct (request_json_get data "api_key") as [api_key | ex]; simpl;
      [| rewrite chat_except_trace; apply Hnone].
    destruct (negb (truthy user_input) || negb (truthy api_key)); simpl; [apply Hnone |].
    destruct (dict_get (extracted_texts st) api_key no_context) as [context | ex]; simpl;
      [| rewrite chat_except_trace; apply Hnone].
    destruct (completions_create e _) as [choices | ex]; simpl.
    + destruct choices as [| first others]; simpl;
        rewrite ?completion_calls_logged, completion_calls_completion, completion_calls_logged;
        eexists [_]; (split; [reflexivity | simpl; lia]).
    + rewrite chat_except_trace. simpl.
      rewrite completion_calls_completion, completion_calls_logged.
      eexists [_]. split; [reflexivity | simpl; lia].
  - destruct (session st) as [user_id |] eqn:Hs;
      [| rewrite process_url_early_exit by auto; apply Hnone'].
    destruct (request_json_get data "url") as [url | ex] eqn:Hurl;
      [| rewrite process_url_early_exit by eauto; apply Hnone'].
    destruct (truthy url) eqn:Htrue;
      [| rewrite process_url_early_exit by eauto; apply Hnone'].
    rewrite (process_url_run e data st user_id url Hs Hurl Htrue). cbv zeta.
    exists [url]. split; [| simpl; lia].
    destruct (requests_get e url) as [page | ex];
      [destruct (users st !! user_id) as [row |]; [destruct (db_commit e) as [ex |] |] |];
      simpl; now rewrite fetch_calls_logged, fetch_calls_fetched.
Qed.

(** ** The store and the table over a run *)

(** X14: [extracted_texts] only grows.  Whatever requests are served, in
    whatever order and with whatever outcome, a key that is bound stays
    bound: no request deletes an entry. *)
Theorem store_only_grows (reqs : list (env * request)) (st : state) (key : string) :
  is_Some (extracted_texts st !! key) ->
  is_Some (extracted_texts (snd (run reqs st)) !! key).
Proof.
  revert st. induction reqs as [| [e r] rest IH]; intros st Hkey; [exact Hkey |].
  rewrite run_cons. apply IH.
  destruct (serve_texts e r st) as [-> | (_ & stored & ->)]; [exact Hkey |].
  destruct (decide (new_api_key e = key)) as [-> | Hne].
  - rewrite lookup_insert_eq. eauto.
  - now rewrite lookup_insert_ne.
Qed.

Lemma store_only_grows_witness :
  is_Some (extracted_texts
             (snd (run later_requests (snd (serve sample_env submit_request alice_state))))
           !! new_api_key sample_env).
Proof.
  apply (store_only_grows later_requests (snd (serve sample_env submit_request alice_state))
           (new_api_key sample_env)).
  vm_compute. eexists. reflexivity.
Defined.

(** ** Accounts: [register], [login], [logout] *)



Lemma has_email_true (s : string) (row : nat * User) :
  has_email s row = true <-> email (snd row) = JStr s.
Proof.
  unfold has_email. destruct (email (snd row)); split; try discriminate.
  - intros H. apply String.eqb_eq in H. now subst.
  - intros H. injection H as ->. apply String.eqb_refl.
Qed.

Lemma find_email_Some (table : gmap nat User) (s : string) (id : nat) (row : User) :
  List.find (has_email s) (map_to_list table) = Some (id, row) ->
  table !! id = Some row /\ email row = JStr s.
Proof.
  intros H. apply find_some in H as [Hin Hp].
  split; [now apply elem_of_map_to_list, list_elem_of_In | now apply has_email_true in Hp].
Qed.

Lemma find_email_found (table : gmap nat User) (id : nat) (row : User) (s : string) :
  table !! id = Some row -> email row = JStr s ->
  is_Some (List.find (has_email s) (map_to_list table)).
Proof.
  intros Hrow Hemail.
  destruct (find _ _) as [found |] eqn:Hfind; [eauto |].
  apply find_none with (x := (id, row)) in Hfind.
  - assert (Ht : has_email s (id, row) = true) by now apply has_email_true.
    rewrite Ht in Hfind. discriminate Hfind.
  - now apply list_elem_of_In, elem_of_map_to_list.
Qed.

Lemma find_email_None (table : gmap nat User) (s : string) :
  (forall id row, table !! id = Some row -> email row <> JStr s) ->
  List.find (has_email s) (map_to_list table) = None.
Proof.
  intros Hnone.
  destruct (List.find (has_email s) (map_to_list table)) as [[id row] |] eqn:Hfind;
    [| reflexivity].
  apply find_email_Some in Hfind as [Hrow Heq]. now destruct (Hnone id row Hrow).
Qed.

(** X15: [register] refuses an address that a row of the table already
    has: the answer is 400 "Email already registered", the password is not
    hashed, and the state is unchanged. *)
Theorem register_rejects_taken_email (e : env) (fields : list (string * json)) (st : state)
    (id : nat) (row : User) (addr : string) :
  users st !! id = Some row ->
  email row = JStr addr ->
  assoc "email" fields = Some (JStr addr) ->
  register e (Returned (JObj fields)) st =
    (Returned (Response 400 (JsonBody (JObj [("error", JStr "Email already registered")]))), st).
Proof.
  intros Hrow Hemail Hfield. unfold register. run_py. rewrite Hfield. simpl.
  destruct (find_email_found (users st) id row addr Hrow Hemail) as [found ->].
  reflexivity.
Qed.

Lemma register_rejects_taken_email_witness :
  register sample_env alice_body alice_state =
    (Returned (Response 400 (JsonBody (JObj [("error", JStr "Email already registered")]))),
     alice_state).
Proof.
  apply (register_rejects_taken_email sample_env
           [("email", JStr "alice@example.com"); ("password", JStr "secret")]
           alice_state 1 alice "alice@example.com");
    reflexivity.
Defined.

Lemma register_success_run (e : env) (fields : list (string * json)) (st : state)
    (addr : string) (pw : json) (hashed : string) :
  assoc "email" fields = Some (JStr addr) ->
  default JNull (assoc "password" fields) = pw ->
  (forall id row, users st !! id = Some row -> email row <> JStr addr) ->
  generate_password_hash e pw = Returned hashed ->
  db_commit e = None ->
  register e (Returned (JObj fields)) st =
    (Returned (Response 201 (JsonBody (JObj [("message", JStr "User registered successfully")]))),
     set_users (insert (next_id (users st)) (mkUser (JStr addr) hashed [])) st).
Proof.
  intros Hfield Hpw Hfree Hhash Hcommit.
  unfold register, add_user, commit. run_py. rewrite Hfield. simpl. rewrite Hpw.
  rewrite (find_email_None (users st) addr Hfree). simpl.
  rewrite Hhash. simpl. now rewrite Hcommit.
Qed.



(** The query of [login] after a registration: the new row is the only
    one with the address. *)
Lemma find_email_insert_fresh (table : gmap nat User) (id : nat) (addr hashed : string)
    (keys : list string) :
  (forall id' row, table !! id' = Some row -> email row <> JStr addr) ->
  List.find (has_email addr) (map_to_list (<[id := mkUser (JStr addr) hashed keys]> table)) =
    Some (id, mkUser (JStr addr) hashed keys).
Proof.
  intros Hfree.
  destruct (find_email_found (<[id := mkUser (JStr addr) hashed keys]> table) id
              (mkUser (JStr addr) hashed keys) addr) as [[id' row] Hfound];
    [apply lookup_insert_eq | reflexivity |].
  rewrite Hfound. apply find_email_Some in Hfound as [Hrow Heq].
  destruct (decide (id = id')) as [<- | Hne].
  - rewrite lookup_insert_eq in Hrow. now injection Hrow as <-.
  - rewrite lookup_insert_ne in Hrow by exact Hne. now destruct (Hfree id' row Hrow).
Qed.

(** X17: a registered user can log in.  After a successful [register], a
    [login] with the same address and a password that
    [check_password_hash] accepts against the stored hash answers 200 and
    puts the primary key of the new row into the session. *)
Theorem register_then_login (e e' : env) (fields : list (string * json)) (st : state)
    (addr : string) (pw : json) (hashed : string) :
  assoc "email" fields = Some (JStr addr) ->
  default JNull (assoc "password" fields) = pw ->
  (forall id row, users st !! id = Some row -> email row <> JStr addr) ->
  generate_password_hash e pw = Returned hashed ->
  db_commit e = None ->
  check_password_hash e' hashed pw = Returned true ->
  let st' := snd (register e (Returned (JObj fields)) st) in
  fst (login e' (Returned (JObj fields)) st') =
    Returned (Response 200 (JsonBody (JObj [("message", JStr "Logged in successfully")])))
  /\ session (snd (login e' (Returned (JObj fields)) st')) = Some (next_id (users st))
  /\ users (snd (login e' (Returned (JObj fields)) st')) = users st'.
Proof.
  intros Hfield Hpw Hfree Hhash Hcommit Hcheck st'. subst st'.
  rewrite (register_success_run e fields st addr pw hashed Hfield Hpw Hfree Hhash Hcommit).
  unfold login. run_py. rewrite Hfield. simpl. rewrite Hpw.
  rewrite (find_email_insert_fresh (users st) _ addr hashed [] Hfree). simpl.
  rewrite Hcheck. simpl. auto.
Qed.

Lemma register_then_login_witness :
  fst (login sample_env bob_body (snd (register sample_env bob_body alice_state))) =
    Returned (Response 200 (JsonBody (JObj [("message", JStr "Logged in successfully")])))
  /\ session (snd (login sample_env bob_body (snd (register sample_env bob_body alice_state)))) =
     Some (next_id (users alice_state))
  /\ users (snd (login sample_env bob_body (snd (register sample_env bob_body alice_state)))) =
     users (snd (register sample_env bob_body alice_state)).
Proof.
  apply (register_then_login sample_env sample_env
           [("email", JStr "bob@example.com"); ("password", JStr "hunter2")]
           alice_state "bob@example.com" (JStr "hunter2") "pbkdf2");
    try reflexivity.
  intros id row Hrow Hemail.
  destruct (decide (id = 1)) as [-> | Hne].
  - vm_compute in Hrow. injection Hrow as <-. discriminate Hemail.
  - unfold alice_state in Hrow. simpl in Hrow.
    rewrite lookup_singleton_ne in Hrow by auto. discriminate Hrow.
Defined.

(** X18: for an address given as a string, [login] gives the same answer
    when no row has the address and when the password check fails for the
    row that has it (the column is unique): 401 "Invalid credentials",
    with the session and the rest of the state unchanged. *)
Theorem login_invalid_credentials (e : env) (fields : list (string * json)) (st : state)
    (addr : string) (pw : json) :
  assoc "email" fields = Some (JStr addr) ->
  default JNull (assoc "password" fields) = pw ->
  (forall id row, users st !! id = Some row -> email row <> JStr addr)
  \/ (forall id row, users st !! id = Some row -> email row = JStr addr ->
        check_password_hash e (password row) pw = Returned false) ->
  login e (Returned (JObj fields)) st =
    (Returned (Response 401 (JsonBody (JObj [("error", JStr "Invalid credentials")]))), st).
Proof.
  intros Haddr Hpw Hbad. unfold login. run_py. rewrite Haddr. simpl. rewrite Hpw.
  destruct (List.find (has_email addr) (map_to_list (users st))) as [[id row] |] eqn:Hfind;
    [| reflexivity].
  apply find_email_Some in Hfind as [Hrow Hemail].
  destruct Hbad as [Hnone | Hwrong]; [now destruct (Hnone id row Hrow) |].
  simpl. now rewrite (Hwrong id row Hrow Hemail).
Qed.

Lemma login_invalid_credentials_witness :
  login wrong_password_env alice_body alice_state =
    (Returned (Response 401 (JsonBody (JObj [("error", JStr "Invalid credentials")]))),
     alice_state).
Proof.
  apply (login_invalid_credentials wrong_password_env
           [("email", JStr "alice@example.com"); ("password", JStr "secret")]
           alice_state "alice@example.com" (JStr "secret"));
    [reflexivity | reflexivity |].
  right. intros id row Hrow Hemail. reflexivity.
Defined.

(** X19: [logout] ends the session and touches nothing else: it answers
    200 in every state, and in the state it leaves both [process_url] and
    [get_user_api_keys] answer 401 "User not logged in". *)
Theorem logout_ends_session (e : env) (data : outcome json) (st : state) :
  fst (logout st) =
    Returned (Response 200 (JsonBody (JObj [("message", JStr "Logged out successfully")])))
  /\ session (snd (logout st)) = None
  /\ users (snd (logout st)) = users st
  /\ extracted_texts (snd (logout st)) = extracted_texts st
  /\ fst (process_url e data (snd (logout st))) =
       Returned (Response 401 (JsonBody (JObj [("error", JStr "User not logged in")])))
  /\ fst (get_user_api_keys (snd (logout st))) =
       Returned (Response 401 (JsonBody (JObj [("error", JStr "User not logged in")]))).
Proof. repeat split. Qed.

(** ** The user table over a run *)









(** ** The remaining edges *)

(** X21: without an [api_key] query parameter, or with an empty one,
    [chatbot_design] answers 400 with the JSON body "API key is required"
    instead of markup, and changes nothing. *)
Theorem chatbot_design_requires_key (query : list (string * string)) (st : state) :
  assoc "api_key" query = None \/ assoc "api_key" query = Some EmptyString ->
  chatbot_design query st =
    (Returned (Response 400 (JsonBody (JObj [("error", JStr "API key is required")]))), st).
Proof. intros [H | H]; unfold chatbot_design; rewrite H; reflexivity. Qed.

Lemma chatbot_design_requires_key_witness :
  chatbot_design [("theme", "dark")] sample_state =
    (Returned (Response 400 (JsonBody (JObj [("error", JStr "API key is required")]))),
     sample_state).
Proof.
  apply (chatbot_design_requires_key [("theme", "dark")] sample_state).
  left. reflexivity.
Defined.

(** X22: [extract_text_from_url] makes exactly one fetch, whether it
    succeeds or not, and changes nothing else; a page without any [<p>]
    element gives the empty string, not an error. *)
Theorem extract_one_fetch_and_empty_page (e : env) (url : json) (st : state)
    (page : http_response) :
  requests_get e url = Returned page ->
  html_paragraphs e (text page) = [] ->
  extract_text_from_url e url st = (Returned EmptyString, add_event (Fetched url) st)
  /\ forall e' : env, snd (extract_text_from_url e' url st) = add_event (Fetched url) st.
Proof.
  intros Hpage Hnone. unfold extract_text_from_url. run_py. split.
  - rewrite Hpage. simpl. now rewrite Hnone.
  - intros e'. now destruct (requests_get e' url).
Qed.

Lemma extract_one_fetch_and_empty_page_witness :
  extract_text_from_url blank_page_env (JStr "http://example.com/blank") sample_state =
    (Returned EmptyString, add_event (Fetched (JStr "http://example.com/blank")) sample_state)
  /\ forall e' : env,
       snd (extract_text_from_url e' (JStr "http://example.com/blank") sample_state) =
       add_event (Fetched (JStr "http://example.com/blank")) sample_state.
Proof.
  apply (extract_one_fetch_and_empty_page blank_page_env (JStr "http://example.com/blank")
           sample_state (HttpResponse 200 "<html><body></body></html>"));
    reflexivity.
Defined.
